(** * Build controllers of pkg/build/controller/controller.go

    A shallow embedding of the four build reconcilers
    (BuildController.HandleBuild, BuildPodController.HandlePod and
    CancelBuild, BuildPodDeleteController.HandleBuildPodDeletion,
    BuildDeleteController.HandleBuildDeletion) and the properties of the
    build status state machine they implement.

    Conventions of the embedding:
    - a Go [*buildapi.Build] that a handler mutates in place is threaded
      explicitly: a handler takes the build value and returns the value the
      object holds when the handler returns;
    - the collaborators behind the Go interfaces (BuildUpdater, podManager,
      BuildStrategy, imageStreamClient, cache.Store, record.EventRecorder)
      are type classes over an abstract world [W]; every call through one of
      them is also appended to a trace of [Call]s, so that "no pod is
      created" or "no persistence call is made" can be stated for every
      implementation of the interfaces;
    - glog logging has no effect on the build, the world or the result and
      is left out. *)

From Stdlib Require Import ZArith String List Bool Lia.
From stdpp Require Import base strings gmap list.
Import ListNotations.

Local Open Scope string_scope.
Local Open Scope list_scope.

(** ** Errors *)

(** Go's [error] values as the controllers see them: an API status error
    carrying a reason ([errors.IsNotFound] and [errors.IsAlreadyExists] look
    at it), or an error built by [fmt.Errorf], which has no reason. *)
Module errors.

Inductive StatusReason : Type :=
| StatusReasonUnknown
| StatusReasonNotFound
| StatusReasonAlreadyExists
| StatusReasonConflict.

Inductive error : Type :=
| StatusError (reason : StatusReason) (msg : string)
| Errorf (msg : string).

(** [err.Error()] *)
Definition Error (err : error) : string :=
  match err with
  | StatusError _ msg => msg
  | Errorf msg => msg
  end.

Definition IsNotFound (err : error) : bool :=
  match err with
  | StatusError StatusReasonNotFound _ => true
  | _ => false
  end.

Definition IsAlreadyExists (err : error) : bool :=
  match err with
  | StatusError StatusReasonAlreadyExists _ => true
  | _ => false
  end.

End errors.
Export errors.

(** [util.Time]: a point in time, as a number. *)
Definition Time : Type := Z.

(** [len(s) == 0] on a Go string. *)
Definition len0 (s : string) : bool := Nat.eqb (String.length s) 0.

(** ** The build API (buildapi) *)

Module buildapi.

(** The closed seven-value status enumeration. *)
Inductive BuildStatus : Type :=
| BuildStatusNew
| BuildStatusPending
| BuildStatusRunning
| BuildStatusComplete
| BuildStatusFailed
| BuildStatusError
| BuildStatusCancelled.

#[global] Instance BuildStatus_eq_dec : EqDecision BuildStatus.
Proof. solve_decision. Defined.

(** [kapi.ObjectReference], as far as the controller reads it. *)
Record ObjectReference : Type := mkObjectReference {
  RefNamespace : string;
  RefName : string
}.

Record BuildOutput : Type := mkBuildOutput {
  To : option ObjectReference;
  Tag : string;
  DockerImageReference : string
}.

Record BuildParameters : Type := mkBuildParameters {
  Output : BuildOutput
}.

Record Build : Type := mkBuild {
  Name : string;
  Namespace : string;
  Parameters : BuildParameters;
  Status : BuildStatus;
  Message : string;
  Cancelled : bool;
  StartTimestamp : option Time;
  CompletionTimestamp : option Time
}.

(** Field assignments through the build pointer. *)
Definition set_Status (s : BuildStatus) (b : Build) : Build :=
  mkBuild (Name b) (Namespace b) (Parameters b) s (Message b)
          (Cancelled b) (StartTimestamp b) (CompletionTimestamp b).

Definition set_Message (m : string) (b : Build) : Build :=
  mkBuild (Name b) (Namespace b) (Parameters b) (Status b) m
          (Cancelled b) (StartTimestamp b) (CompletionTimestamp b).

Definition set_StartTimestamp (t : option Time) (b : Build) : Build :=
  mkBuild (Name b) (Namespace b) (Parameters b) (Status b) (Message b)
          (Cancelled b) t (CompletionTimestamp b).

Definition set_CompletionTimestamp (t : option Time) (b : Build) : Build :=
  mkBuild (Name b) (Namespace b) (Parameters b) (Status b) (Message b)
          (Cancelled b) (StartTimestamp b) t.

(** [build.Parameters.Output.DockerImageReference = spec] *)
Definition set_DockerImageReference (spec : string) (b : Build) : Build :=
  mkBuild (Name b) (Namespace b)
          (mkBuildParameters
             (mkBuildOutput (To (Output (Parameters b)))
                            (Tag (Output (Parameters b))) spec))
          (Status b) (Message b)
          (Cancelled b) (StartTimestamp b) (CompletionTimestamp b).

End buildapi.

(** ** The pod API (kapi) *)

Module kapi.

Inductive PodPhase : Type :=
| PodPending
| PodRunning
| PodSucceeded
| PodFailed
| PodUnknown.

Record ContainerStateTerminated : Type := mkTerminated {
  ExitCode : Z
}.

(** [info.State.Termination] is a pointer: [None] is nil. *)
Record ContainerState : Type := mkContainerState {
  Termination : option ContainerStateTerminated
}.

Record ContainerStatus : Type := mkContainerStatus {
  State : ContainerState
}.

Record PodStatus : Type := mkPodStatus {
  Phase : PodPhase;
  ContainerStatuses : list ContainerStatus
}.

Record Pod : Type := mkPod {
  Name : string;
  Namespace : string;
  Labels : gmap string string;
  Status : PodStatus
}.

(** [pod.Labels[key]]: a Go map lookup yields the zero value, the empty
    string, for a key that is not in the map. *)
Definition Label (key : string) (pod : Pod) : string :=
  default "" (Labels pod !! key).

End kapi.

(** ** The image API (imageapi) *)

Module imageapi.

Record ImageStreamStatus : Type := mkImageStreamStatus {
  DockerImageRepository : string
}.

Record ImageStream : Type := mkImageStream {
  Name : string;
  Namespace : string;
  Status : ImageStreamStatus
}.

End imageapi.

Import buildapi.

(** ** buildutil *)

Module buildutil.

(** Modelled from the spec: buildutil.IsBuildComplete, of pkg/build/util,
    is not among the sources. The spec's terminal statuses are Complete,
    Failed, Error and Cancelled; the non-terminal ones New, Pending and
    Running. *)
Definition IsBuildComplete (build : Build) : bool :=
  match Status build with
  | BuildStatusNew | BuildStatusPending | BuildStatusRunning => false
  | BuildStatusComplete | BuildStatusFailed
  | BuildStatusError | BuildStatusCancelled => true
  end.

(** Modelled from the spec: buildutil.GetBuildPodName, of pkg/build/util,
    is not among the sources. The spec's correlation convention is
    pod name == build name. *)
Definition GetBuildPodName (build : Build) : string := Name build.

End buildutil.

(** ** Calls through the collaborator interfaces *)

Inductive Call : Type :=
| CallGetImageStream (namespace name : string)
| CallCreateBuildPod (build : Build)
| CallCreatePod (namespace : string) (pod : kapi.Pod)
| CallDeletePod (namespace : string) (pod : kapi.Pod)
| CallGetPod (namespace name : string)
| CallUpdate (namespace : string) (build : Build)
| CallStoreGet (pod : kapi.Pod)
| CallEventf (build : Build) (reason message : string).

Definition isUpdate (c : Call) : bool :=
  match c with CallUpdate _ _ => true | _ => false end.

Definition isCreatePod (c : Call) : bool :=
  match c with CallCreatePod _ _ => true | _ => false end.

(** ** The collaborator interfaces *)

(** [buildclient.BuildUpdater] *)
Class BuildUpdater (W : Type) : Type := {
  Update : string -> Build -> W -> option error * W
}.

(** [podManager]. [GetPod] returns the Go pair (pod, err), either of which
    can be nil. *)
Class podManager (W : Type) : Type := {
  CreatePod : string -> kapi.Pod -> W -> (kapi.Pod + error) * W;
  DeletePod : string -> kapi.Pod -> W -> option error * W;
  GetPod : string -> string -> W -> (option kapi.Pod * option error) * W
}.

(** [BuildStrategy] *)
Class BuildStrategy (W : Type) : Type := {
  CreateBuildPod : Build -> W -> (kapi.Pod + error) * W
}.

(** [imageStreamClient] *)
Class imageStreamClient (W : Type) : Type := {
  GetImageStream : string -> string -> W -> (imageapi.ImageStream + error) * W
}.

(** [cache.Store], of which the controllers use [Get] only; it returns the
    Go triple (obj, exists, err). *)
Class BuildStore (W : Type) : Type := {
  StoreGet : kapi.Pod -> W -> (option Build * bool * option error) * W
}.

(** [record.EventRecorder] *)
Class EventRecorder (W : Type) : Type := {
  Eventf : Build -> string -> string -> W -> W
}.

(** [util.Now()] reads the clock of the world. *)
Class Clock (W : Type) : Type := {
  Now : W -> Time
}.

(** ** The handler monad: world passing with a trace of calls *)

Section Controllers.

Context {W : Type}.
Context {BU : BuildUpdater W} {PM : podManager W} {BS : BuildStrategy W}
        {ISC : imageStreamClient W} {ST : BuildStore W}
        {ER : EventRecorder W} {CK : Clock W}.

(** [buildapi.BuildLabel], the key of the pod label that carries the
    build's name; the constant is declared outside the sources. *)
Variable BuildLabel : string.

(** [kapi.Scheme.Copy] makes a deep copy of the build or fails;
    [copy_error] says when it fails. A deep copy of a value is that value. *)
Variable copy_error : Build -> option error.

Definition Scheme_Copy (build : Build) : Build + error :=
  match copy_error build with
  | Some err => inr err
  | None => inl build
  end.

(** A computation takes the world and returns its result, the new world
    and the calls it made, in order. *)
Definition M (A : Type) : Type := W -> A * W * list Call.

Definition ret {A : Type} (a : A) : M A := fun w => (a, w, []).

Definition bind {A B : Type} (m : M A) (f : A -> M B) : M B :=
  fun w =>
    let '(a, w1, t1) := m w in
    let '(b, w2, t2) := f a w1 in
    (b, w2, t1 ++ t2).

(** One call through an interface: run it and log it. *)
Definition call {A : Type} (c : Call) (f : W -> A * W) : M A :=
  fun w => let '(a, w') := f w in (a, w', [c]).

Notation "x <- m ;; k" := (bind m (fun x => k))
  (at level 100, m at level 99, right associativity).

Definition result {A : Type} (r : A * W * list Call) : A := fst (fst r).
Definition world {A : Type} (r : A * W * list Call) : W := snd (fst r).
Definition trace {A : Type} (r : A * W * list Call) : list Call := snd r.

Definition doGetImageStream (namespace name : string) :=
  call (CallGetImageStream namespace name) (GetImageStream namespace name).
Definition doCreateBuildPod (build : Build) :=
  call (CallCreateBuildPod build) (CreateBuildPod build).
Definition doCreatePod (namespace : string) (pod : kapi.Pod) :=
  call (CallCreatePod namespace pod) (CreatePod namespace pod).
Definition doDeletePod (namespace : string) (pod : kapi.Pod) :=
  call (CallDeletePod namespace pod) (DeletePod namespace pod).
Definition doGetPod (namespace name : string) :=
  call (CallGetPod namespace name) (GetPod namespace name).
Definition doUpdate (namespace : string) (build : Build) :=
  call (CallUpdate namespace build) (Update namespace build).
Definition doStoreGet (pod : kapi.Pod) :=
  call (CallStoreGet pod) (StoreGet pod).
Definition doEventf (build : Build) (reason message : string) : M unit :=
  call (CallEventf build reason message)
       (fun w => (tt, Eventf build reason message w)).
Definition utilNow : M Time := fun w => (Now w, w, []).

(** ** BuildController *)

(** The destination lookup of nextBuildStatus (the block under "lookup
    the destination from the referenced image repository"): the resolved
    [spec], or the error nextBuildStatus returns from inside the block. *)
Definition resolveOutput (build : Build) : M (string + error) :=
  let spec := DockerImageReference (Output (Parameters build)) in
  match To (Output (Parameters build)) with
  | Some ref =>
      let namespace :=
        if len0 (RefNamespace ref) then Namespace build
        else RefNamespace ref in
      r <- doGetImageStream namespace (RefName ref) ;;
      match r with
      | inr err =>
          if IsNotFound err then
            ret (inr (Errorf ("the referenced output image stream "
                                +:+ namespace +:+ "/" +:+ RefName ref
                                +:+ " does not exist")))
          else
            ret (inr (Errorf ("the referenced output image stream "
                                +:+ namespace +:+ "/" +:+ RefName ref
                                +:+ " could not be found by build "
                                +:+ Namespace build +:+ "/" +:+ Name build
                                +:+ ": " +:+ Error err)))
      | inl repo =>
          let repository :=
            imageapi.DockerImageRepository (imageapi.Status repo) in
          if len0 repository then
            ret (inr (Errorf ("the image stream "
                                +:+ namespace +:+ "/" +:+ RefName ref
                                +:+ " cannot be used as the output for build "
                                +:+ Namespace build +:+ "/" +:+ Name build
                                +:+ " because the integrated Docker registry is not configured, or the user forgot to set a valid external registry")))
          else if len0 (Tag (Output (Parameters build))) then
            ret (inl repository)
          else
            ret (inl (repository +:+ ":" +:+ Tag (Output (Parameters build))))
      end
  | None => ret (inl spec)
  end.

(** nextBuildStatus: the error it returns and the build as it leaves it. *)
Definition nextBuildStatus (build : Build) : M (option error * Build) :=
  if Cancelled build then
    ret (None, set_Status BuildStatusCancelled build)
  else
    r <- resolveOutput build ;;
    match r with
    | inr err => ret (Some err, build)
    | inl spec =>
        let build := set_Status BuildStatusPending build in
        let build := set_DockerImageReference spec build in
        match Scheme_Copy build with
        | inr err =>
            ret (Some (Errorf ("unable to copy build: " +:+ Error err)), build)
        | inl buildCopy =>
            r <- doCreateBuildPod buildCopy ;;
            match r with
            | inr err =>
                ret (Some (Errorf ("the strategy failed to create a build pod for "
                                     +:+ Namespace build +:+ "/" +:+ Name build
                                     +:+ ": " +:+ Error err)), build)
            | inl podSpec =>
                r <- doCreatePod (Namespace build) podSpec ;;
                match r with
                | inr err =>
                    if IsAlreadyExists err then ret (None, build)
                    else
                      _ <- doEventf build "failedCreate"
                                    ("Error creating: " +:+ Error err) ;;
                      ret (Some (Errorf ("failed to create pod for build "
                                           +:+ Namespace build +:+ "/" +:+ Name build
                                           +:+ ": " +:+ Error err)), build)
                | inl _ => ret (None, build)
                end
            end
        end
    end.

Definition HandleBuild (build : Build) : M (option error * Build) :=
  if decide (Status build <> BuildStatusNew) then ret (None, build)
  else
    r <- nextBuildStatus build ;;
    match r with
    | (Some err, build) =>
        ret (Some (Errorf ("Build failed with error "
                             +:+ Namespace build +:+ "/" +:+ Name build
                             +:+ ": " +:+ Error err)), build)
    | (None, build) =>
        (* a failed update is logged, not returned *)
        _ <- doUpdate (Namespace build) build ;;
        ret (None, build)
    end.

(** ** BuildPodController *)

Definition isBuildCancellable (build : Build) : bool :=
  bool_decide (Status build = BuildStatusNew)
  || bool_decide (Status build = BuildStatusPending)
  || bool_decide (Status build = BuildStatusRunning).

(** The tail of CancelBuild, after the pod is deleted or found missing:
    set the status, stamp the completion time, persist. *)
Definition markCancelled (build : Build) : M (option error * Build) :=
  let build := set_Status BuildStatusCancelled build in
  now <- utilNow ;;
  let build := set_CompletionTimestamp (Some now) build in
  err <- doUpdate (Namespace build) build ;;
  ret (err, build).

Definition CancelBuild (build : Build) (pod : kapi.Pod)
  : M (option error * Build) :=
  if negb (isBuildCancellable build) then ret (None, build)
  else
    err <- doDeletePod (Namespace build) pod ;;
    match err with
    | Some e =>
        if negb (IsNotFound e) then ret (Some e, build)
        else markCancelled build
    | None => markCancelled build
    end.

(** The loop over [pod.Status.ContainerStatuses] of HandlePod: it leaves
    [nextStatus] as it is, or sets it to Failed and breaks at the first
    container that terminated with a nonzero exit code. *)
Fixpoint checkExitCodes (infos : list kapi.ContainerStatus)
         (nextStatus : BuildStatus) : BuildStatus :=
  match infos with
  | [] => nextStatus
  | info :: rest =>
      match kapi.Termination (kapi.State info) with
      | Some t =>
          if negb (Z.eqb (kapi.ExitCode t) 0) then BuildStatusFailed
          else checkExitCodes rest nextStatus
      | None => checkExitCodes rest nextStatus
      end
  end.

(** The status HandlePod computes from the pod (its [switch]). *)
Definition podNextStatus (build : Build) (pod : kapi.Pod) : BuildStatus :=
  let nextStatus := Status build in
  match kapi.Phase (kapi.Status pod) with
  | kapi.PodRunning => BuildStatusRunning
  | kapi.PodSucceeded | kapi.PodFailed =>
      checkExitCodes (kapi.ContainerStatuses (kapi.Status pod))
                     BuildStatusComplete
  | _ => nextStatus
  end.

(** HandlePod: the error it returns and, when a build was found in the
    store, that build as the handler leaves it. *)
Definition HandlePod (pod : kapi.Pod) : M (option error * option Build) :=
  r <- doStoreGet pod ;;
  match r with
  | (_, _, Some err) => ret (Some err, None)
  | (obj, exists_, None) =>
      match obj with
      | Some build =>
          if negb exists_ then ret (None, None)
          else if Cancelled build then
            r <- CancelBuild build pod ;;
            match r with
            | (Some err, build) =>
                ret (Some (Errorf ("Failed to cancel build " +:+ Name build
                                     +:+ ": " +:+ Error err +:+ ", will retry")),
                     Some build)
            | (None, build) => ret (None, Some build)
            end
          else
            let nextStatus := podNextStatus build pod in
            if decide (Status build <> nextStatus) then
              let build := set_Status nextStatus build in
              build <-
                (if buildutil.IsBuildComplete build then
                   now <- utilNow ;;
                   ret (set_CompletionTimestamp (Some now) build)
                 else ret build) ;;
              build <-
                (if decide (Status build = BuildStatusRunning) then
                   now <- utilNow ;;
                   ret (set_StartTimestamp (Some now) build)
                 else ret build) ;;
              err <- doUpdate (Namespace build) build ;;
              match err with
              | Some err =>
                  ret (Some (Errorf ("Failed to update build " +:+ Name build
                                       +:+ ": " +:+ Error err)), Some build)
              | None => ret (None, Some build)
              end
            else ret (None, Some build)
      | None => ret (None, None)
      end
  end.

(** ** BuildPodDeleteController *)

Definition HandleBuildPodDeletion (pod : kapi.Pod)
  : M (option error * option Build) :=
  r <- doStoreGet pod ;;
  match r with
  | (_, _, Some err) => ret (Some err, None)
  | (obj, exists_, None) =>
      match obj with
      | Some build =>
          if negb exists_ then ret (None, None)
          else if buildutil.IsBuildComplete build then ret (None, Some build)
          else
            let nextStatus := BuildStatusError in
            if decide (Status build <> nextStatus) then
              let build := set_Status nextStatus build in
              let build :=
                set_Message "The Pod for this Build was deleted before the Build completed."
                            build in
              now <- utilNow ;;
              let build := set_CompletionTimestamp (Some now) build in
              err <- doUpdate (Namespace build) build ;;
              match err with
              | Some err =>
                  ret (Some (Errorf ("Failed to update build " +:+ Name build
                                       +:+ ": " +:+ Error err)), Some build)
              | None => ret (None, Some build)
              end
            else ret (None, Some build)
      | None => ret (None, None)
      end
  end.

(** ** BuildDeleteController *)

Definition HandleBuildDeletion (build : Build) : M (option error) :=
  let podName := buildutil.GetBuildPodName build in
  r <- doGetPod (Namespace build) podName ;;
  match r with
  | (_, Some err) => ret (Some err)
  | (None, None) => ret None
  | (Some pod, None) =>
      if decide (kapi.Label BuildLabel pod <> Name build) then ret None
      else
        err <- doDeletePod (Namespace build) pod ;;
        match err with
        | Some err => ret (Some err)
        | None => ret None
        end
  end.

End Controllers.

(** ** An in-memory cluster *)

(** Modelled from the spec: the implementations of the collaborator
    interfaces (the pod manager, the image stream client, the build updater,
    the build store) are not among the sources. The spec's contracts are:
    CreatePod gives the pod or AlreadyExists, DeletePod succeeds or gives
    NotFound, GetPod gives the pod or nil when it is absent, GetImageStream
    gives the stream or NotFound, Update succeeds or fails, and the build
    index finds the build that has the pod's name. Here pods, image streams
    and builds are kept in lists and looked up by namespace and name, and
    the strategy is a function of the build it is given. *)
Module InMemory.

Record Cluster : Type := mkCluster {
  pods : list kapi.Pod;
  imageStreams : list imageapi.ImageStream;
  builds : list Build;
  events : list (string * string);
  clock : Time
}.

Definition set_pods (ps : list kapi.Pod) (c : Cluster) : Cluster :=
  mkCluster ps (imageStreams c) (builds c) (events c) (clock c).

Definition set_builds (bs : list Build) (c : Cluster) : Cluster :=
  mkCluster (pods c) (imageStreams c) bs (events c) (clock c).

Definition set_events (es : list (string * string)) (c : Cluster) : Cluster :=
  mkCluster (pods c) (imageStreams c) (builds c) es (clock c).

Definition podIs (namespace name : string) (p : kapi.Pod) : bool :=
  String.eqb (kapi.Namespace p) namespace && String.eqb (kapi.Name p) name.

Definition buildIs (namespace name : string) (b : Build) : bool :=
  String.eqb (Namespace b) namespace && String.eqb (Name b) name.

Definition streamIs (namespace name : string) (s : imageapi.ImageStream)
  : bool :=
  String.eqb (imageapi.Namespace s) namespace
  && String.eqb (imageapi.Name s) name.

(** The pods stored under a namespace and name. *)
Definition podsNamed (namespace name : string) (c : Cluster)
  : list kapi.Pod :=
  List.filter (podIs namespace name) (pods c).

Definition inNamespace (namespace : string) (p : kapi.Pod) : kapi.Pod :=
  kapi.mkPod (kapi.Name p) namespace (kapi.Labels p) (kapi.Status p).

(** Modelled from the spec: the pod manager's CreatePod is not among the
    sources; it gives the created pod, or AlreadyExists when a pod of that
    namespace and name is there. *)
Definition createPod (namespace : string) (pod : kapi.Pod) (c : Cluster)
  : (kapi.Pod + error) * Cluster :=
  if existsb (podIs namespace (kapi.Name pod)) (pods c) then
    (inr (StatusError StatusReasonAlreadyExists
                      ("pod " +:+ kapi.Name pod +:+ " already exists")), c)
  else
    let created := inNamespace namespace pod in
    (inl created, set_pods (pods c ++ [created]) c).

(** Modelled from the spec: the pod manager's DeletePod is not among the
    sources; it succeeds, or gives NotFound when the pod is not there. *)
Definition deletePod (namespace : string) (pod : kapi.Pod) (c : Cluster)
  : option error * Cluster :=
  if existsb (podIs namespace (kapi.Name pod)) (pods c) then
    (None,
     set_pods (List.filter (fun p => negb (podIs namespace (kapi.Name pod) p))
                           (pods c)) c)
  else
    (Some (StatusError StatusReasonNotFound
                       ("pod " +:+ kapi.Name pod +:+ " not found")), c).

(** Modelled from the spec: the pod manager's GetPod is not among the
    sources; it gives the pod, or nil when the pod is absent. *)
Definition getPod (namespace name : string) (c : Cluster)
  : (option kapi.Pod * option error) * Cluster :=
  (List.find (podIs namespace name) (pods c), None, c).

(** Modelled from the spec: the image stream client's GetImageStream is
    not among the sources; it gives the stream, or NotFound. *)
Definition getImageStream (namespace name : string) (c : Cluster)
  : (imageapi.ImageStream + error) * Cluster :=
  match List.find (streamIs namespace name) (imageStreams c) with
  | Some s => (inl s, c)
  | None =>
      (inr (StatusError StatusReasonNotFound
                        ("imageStream " +:+ name +:+ " not found")), c)
  end.

(** Modelled from the spec: the build updater's Update is not among the
    sources; it replaces the persisted build of that namespace and name, or
    fails when there is none. *)
Definition update (namespace : string) (build : Build) (c : Cluster)
  : option error * Cluster :=
  if existsb (buildIs namespace (Name build)) (builds c) then
    (None,
     set_builds (List.map (fun b => if buildIs namespace (Name build) b
                                    then build else b) (builds c)) c)
  else
    (Some (StatusError StatusReasonNotFound
                       ("build " +:+ Name build +:+ " not found")), c).

(** Modelled from the spec: the build store's Get is not among the
    sources; it finds the build that has the pod's namespace and name. *)
Definition storeGet (pod : kapi.Pod) (c : Cluster)
  : (option Build * bool * option error) * Cluster :=
  match List.find (buildIs (kapi.Namespace pod) (kapi.Name pod)) (builds c) with
  | Some b => (Some b, true, None, c)
  | None => (None, false, None, c)
  end.

(** Modelled from the spec: the event recorder's Eventf is not among the
    sources; it records the event and surfaces no error. *)
Definition eventf (build : Build) (reason message : string) (c : Cluster)
  : Cluster :=
  set_events (events c ++ [(reason, message)]) c.

#[export] Instance cluster_BuildUpdater : BuildUpdater Cluster :=
  {| Update := update |}.
#[export] Instance cluster_podManager : podManager Cluster :=
  {| CreatePod := createPod; DeletePod := deletePod; GetPod := getPod |}.
#[export] Instance cluster_imageStreamClient : imageStreamClient Cluster :=
  {| GetImageStream := getImageStream |}.
#[export] Instance cluster_BuildStore : BuildStore Cluster :=
  {| StoreGet := storeGet |}.
#[export] Instance cluster_EventRecorder : EventRecorder Cluster :=
  {| Eventf := eventf |}.
#[export] Instance cluster_Clock : Clock Cluster :=
  {| Now := clock |}.

(** A strategy that is a function of the build alone. *)
Definition pureStrategy (f : Build -> kapi.Pod + error)
  : BuildStrategy Cluster :=
  {| CreateBuildPod := fun build c => (f build, c) |}.

(** The label key and the strategy of the examples: the pod is named
    after the build and labelled with the build's name. *)
Definition exampleLabel : string := "build".

Definition examplePod (build : Build) : kapi.Pod + error :=
  inl (kapi.mkPod (Name build) (Namespace build)
                  {[ exampleLabel := Name build ]}
                  (kapi.mkPodStatus kapi.PodPending [])).

#[export] Instance cluster_BuildStrategy : BuildStrategy Cluster :=
  pureStrategy examplePod.

Definition neverFails (build : Build) : option error := None.

End InMemory.

(** ** Example builds, pods and clusters *)

Module Examples.

Import InMemory.

(** The build of the spec's example: New, output to image stream "is1"
    with tag "v1". *)
Definition b1 : Build :=
  mkBuild "b1" "ns"
          (mkBuildParameters
             (mkBuildOutput (Some (mkObjectReference "" "is1")) "v1" ""))
          BuildStatusNew "" false None None.

Definition is1 : imageapi.ImageStream :=
  imageapi.mkImageStream "is1" "ns"
    (imageapi.mkImageStreamStatus "registry:5000/ns/is1").

(** A cluster that holds the image stream and one build, and no pod. *)
Definition clusterOf (build : Build) : Cluster :=
  mkCluster [] [is1] [build] [] 100%Z.

(** [b1] with a cancellation request. *)
Definition b1Cancelling : Build :=
  mkBuild "b1" "ns" (Parameters b1) BuildStatusNew "" true None None.

Definition b1Pending : Build := set_Status BuildStatusPending b1.

Definition b1Running : Build := set_Status BuildStatusRunning b1.

(** [b1] completed at time 50. *)
Definition b1Complete : Build :=
  set_CompletionTimestamp (Some 50%Z) (set_Status BuildStatusComplete b1).

(** A New build whose output names an image stream that is not there. *)
Definition b2 : Build :=
  mkBuild "b2" "ns"
          (mkBuildParameters
             (mkBuildOutput (Some (mkObjectReference "" "nope")) "" ""))
          BuildStatusNew "" false None None.

(** The pod of [b1], in a phase and with one terminated container for
    each exit code. *)
Definition podOf (phase : kapi.PodPhase) (codes : list Z) : kapi.Pod :=
  kapi.mkPod "b1" "ns" {[ exampleLabel := "b1" ]}
    (kapi.mkPodStatus phase
       (List.map (fun code =>
               kapi.mkContainerStatus
                 (kapi.mkContainerState (Some (kapi.mkTerminated code))))
            codes)).

(** A pod that has the name of [b1] and the label of another build. *)
Definition strayPod : kapi.Pod :=
  kapi.mkPod "b1" "ns" {[ exampleLabel := "other" ]}
    (kapi.mkPodStatus kapi.PodRunning []).

Definition clusterWithStrayPod : Cluster :=
  mkCluster [strayPod] [is1] [] [] 100%Z.

End Examples.


(** ** Failing collaborators and further examples *)

Module Faulty.

Import InMemory.

(** Modelled from the spec: a pod manager that answers every creation and
    deletion with a backend error (neither AlreadyExists nor NotFound), as
    when a quota is exceeded or the server is unavailable; the
    implementations of the pod manager are not among the sources. *)
Definition refusingPods : podManager Cluster :=
  {| CreatePod := fun namespace pod c =>
       (inr (StatusError StatusReasonUnknown "quota exceeded"), c);
     DeletePod := fun namespace pod c =>
       (Some (StatusError StatusReasonUnknown "server unavailable"), c);
     GetPod := getPod |}.

(** A strategy that cannot make a pod for any build. *)
Definition noStrategy (build : Build) : kapi.Pod + error :=
  inr (Errorf "no strategy for this build").

(** Modelled from the spec: a build store whose lookup fails; the
    implementation of the build store is not among the sources. *)
Definition brokenStore : BuildStore Cluster :=
  {| StoreGet := fun pod c =>
       (None, false, Some (Errorf "store unavailable"), c) |}.

End Faulty.

Module MoreExamples.

Import InMemory Examples.

(** A New build whose output is a literal reference. *)
Definition b3 : Build :=
  mkBuild "b3" "ns"
          (mkBuildParameters (mkBuildOutput None "" "registry/app:latest"))
          BuildStatusNew "" false None None.

(** [b1], Running, with a cancellation request. *)
Definition b1RunningCancelling : Build :=
  mkBuild "b1" "ns" (Parameters b1) BuildStatusRunning "" true None None.

(** [b1], Cancelled at time 60 after a cancellation request. *)
Definition b1Cancelled : Build :=
  mkBuild "b1" "ns" (Parameters b1) BuildStatusCancelled "" true None
          (Some 60%Z).

(** A cluster that holds the build and the pod named after it. *)
Definition clusterWithPodOf (build : Build) : Cluster :=
  mkCluster [podOf kapi.PodRunning []] [is1] [build] [] 100%Z.

(** A cluster that holds the image stream and nothing else. *)
Definition emptyCluster : Cluster := mkCluster [] [is1] [] [] 100%Z.

End MoreExamples.

(** * Properties of the reconcilers *)

(** The terminal statuses. *)
Definition terminal (s : BuildStatus) : Prop :=
  s = BuildStatusComplete \/ s = BuildStatusFailed
  \/ s = BuildStatusError \/ s = BuildStatusCancelled.

(** No call of the trace is a persistence call. *)
Definition noUpdate (t : list Call) : Prop :=
  Forall (fun c => isUpdate c = false) t.

(** No call of the trace creates a pod. *)
Definition noCreatePod (t : list Call) : Prop :=
  Forall (fun c => isCreatePod c = false) t.

(** The build as the pod-loss reconciler marks it: status Error, the
    message about the deleted pod, completion stamped at [now]. *)
Definition lostPod (now : Time) (build : Build) : Build :=
  set_CompletionTimestamp (Some now)
    (set_Message "The Pod for this Build was deleted before the Build completed."
       (set_Status BuildStatusError build)).

(** Every container of the pod either has no termination record or
    terminated with exit code zero. *)
Definition allExitZero (pod : kapi.Pod) : Prop :=
  Forall (fun info =>
            match kapi.Termination (kapi.State info) with
            | Some t => kapi.ExitCode t = 0%Z
            | None => True
            end)
         (kapi.ContainerStatuses (kapi.Status pod)).

(** Some container of the pod terminated with a nonzero exit code. *)
Definition someExitNonzero (pod : kapi.Pod) : Prop :=
  Exists (fun info =>
            exists t, kapi.Termination (kapi.State info) = Some t
                      /\ kapi.ExitCode t <> 0%Z)
         (kapi.ContainerStatuses (kapi.Status pod)).

(** The output reference for a repository and a tag: the repository, or
    repository:tag when a tag is given. *)
Definition composeReference (repository tag : string) : string :=
  if decide (tag = "") then repository else repository +:+ ":" +:+ tag.

(** The build as the admission reconciler hands it to the strategy: status
    Pending and the resolved reference [spec] in its output. *)
Definition pendingWith (spec : string) (build : Build) : Build :=
  set_DockerImageReference spec (set_Status BuildStatusPending build).


(** Unfold one layer of the handler monad. *)
Ltac unmonad :=
  unfold doGetImageStream, doCreateBuildPod, doCreatePod, doDeletePod,
    doGetPod, doUpdate, doStoreGet, doEventf, utilNow in *;
  unfold bind, call, ret, result, world, trace in *;
  simpl in *.

Section Properties.

Context {W : Type}.
Context {BU : BuildUpdater W} {PM : podManager W} {BS : BuildStrategy W}
        {ISC : imageStreamClient W} {ST : BuildStore W}
        {ER : EventRecorder W} {CK : Clock W}.

Lemma terminal_IsBuildComplete (build : Build) :
  terminal (Status build) <-> buildutil.IsBuildComplete build = true.
Proof.
  unfold terminal, buildutil.IsBuildComplete.
  destruct (Status build); split; intros H;
    try discriminate; try tauto;
    destruct H as [H|[H|[H|H]]]; discriminate.
Qed.

Lemma terminal_not_cancellable (build : Build) :
  terminal (Status build) -> isBuildCancellable build = false.
Proof.
  unfold terminal, isBuildCancellable.
  destruct (Status build); intros [H|[H|[H|H]]];
    try discriminate; reflexivity.
Qed.

(** ** The admission reconciler *)

Section Admission.

Variable copy_error : Build -> option error.

(** resolveOutput makes no call but the image stream lookup. *)
Lemma resolveOutput_trace (build : Build) (w : W) :
  noUpdate (trace (resolveOutput build w))
  /\ noCreatePod (trace (resolveOutput build w)).
Proof.
  unfold resolveOutput.
  destruct (To (Output (Parameters build))) as [ref|]; unmonad;
    [|split; constructor].
  cbv zeta.
  match goal with
  | |- context [GetImageStream ?ns ?n w] =>
      destruct (GetImageStream ns n w) as [[repo|err] w1]; simpl
  end.
  - destruct (len0 _); simpl; [|destruct (len0 _); simpl];
      split; repeat constructor.
  - destruct (IsNotFound err); simpl; split; repeat constructor.
Qed.

(** nextBuildStatus never persists the build. *)
Lemma nextBuildStatus_noUpdate (build : Build) (w : W) :
  noUpdate (trace (nextBuildStatus copy_error build w)).
Proof.
  unfold nextBuildStatus.
  destruct (Cancelled build); [constructor|].
  pose proof (resolveOutput_trace build w) as [Hres _].
  unfold bind, trace in *.
  destruct (resolveOutput build w) as [[[spec|err] w1] t1]; simpl in *.
  2:{ unfold noUpdate. rewrite app_nil_r. exact Hres. }
  unfold Scheme_Copy.
  destruct (copy_error _) as [cerr|]; simpl.
  { unfold noUpdate. rewrite app_nil_r. exact Hres. }
  unmonad.
  destruct (CreateBuildPod _ w1) as [[podSpec|serr] w2]; simpl.
  2:{ apply Forall_app; split; [exact Hres|repeat constructor]. }
  destruct (CreatePod _ podSpec w2) as [[created|perr] w3]; simpl.
  { apply Forall_app; split; [exact Hres|repeat constructor]. }
  destruct (IsAlreadyExists perr); simpl;
    apply Forall_app; split; try exact Hres; repeat constructor.
Qed.

(** C4: for a build whose status is not New, HandleBuild returns no
    error, leaves the build (status and output included) as it is, leaves
    the world as it is and calls no collaborator: no pod is created and
    no persistence call is made. *)
Theorem HandleBuild_not_New_noop (build : Build) (w : W) :
  Status build <> BuildStatusNew ->
  HandleBuild copy_error build w = (None, build, w, []).
Proof.
  intros Hnew. unfold HandleBuild.
  destruct (decide (Status build <> BuildStatusNew)) as [_|Hn];
    [reflexivity|contradiction].
Qed.

(** C10: when HandleBuild returns an error, the build it was given was
    New and the handler made no call to BuildUpdater.Update, so what is
    persisted is what was persisted before. *)
Theorem HandleBuild_error_noUpdate (build : Build) (w : W) (err : error) :
  fst (result (HandleBuild copy_error build w)) = Some err ->
  Status build = BuildStatusNew
  /\ noUpdate (trace (HandleBuild copy_error build w)).
Proof.
  unfold HandleBuild.
  destruct (decide (Status build <> BuildStatusNew)) as [Hn|Hn].
  { unfold result, ret. simpl. discriminate. }
  intros Herr. split.
  { destruct (decide (Status build = BuildStatusNew)); tauto. }
  pose proof (nextBuildStatus_noUpdate build w) as Hnb.
  unfold bind, result, trace in *.
  destruct (nextBuildStatus copy_error build w) as [[[[e|] b1] w1] t1];
    simpl in *.
  - unfold noUpdate. rewrite app_nil_r. exact Hnb.
  - unmonad. destruct (Update _ b1 w1) as [u w2]. simpl in Herr.
    discriminate.
Qed.

Lemma len0_true (s : string) : len0 s = true <-> s = "".
Proof.
  unfold len0. destruct s; simpl; split; intros H;
    try reflexivity; discriminate.
Qed.

Lemma len0_false (s : string) : len0 s = false <-> s <> "".
Proof.
  rewrite <- len0_true. destruct (len0 s); split; congruence.
Qed.

(** The destination lookup, for an output that names an image stream
    with a backing repository. *)
Lemma resolveOutput_stream (build : Build) (w w1 : W)
      (ref : ObjectReference) (repo : imageapi.ImageStream) :
  To (Output (Parameters build)) = Some ref ->
  GetImageStream (if len0 (RefNamespace ref) then Namespace build
                  else RefNamespace ref) (RefName ref) w = (inl repo, w1) ->
  imageapi.DockerImageRepository (imageapi.Status repo) <> "" ->
  resolveOutput build w
  = (inl (composeReference
            (imageapi.DockerImageRepository (imageapi.Status repo))
            (Tag (Output (Parameters build)))),
     w1,
     [CallGetImageStream (if len0 (RefNamespace ref) then Namespace build
                          else RefNamespace ref) (RefName ref)]).
Proof.
  intros Hto Hget Hrepo. unfold resolveOutput. rewrite Hto.
  unmonad. rewrite Hget. simpl.
  apply len0_false in Hrepo. rewrite Hrepo.
  unfold composeReference.
  destruct (len0 (Tag (Output (Parameters build)))) eqn:Htag.
  - apply len0_true in Htag. rewrite Htag.
    destruct (decide ("" = "")); [reflexivity|congruence].
  - apply len0_false in Htag.
    destruct (decide (Tag (Output (Parameters build)) = ""));
      [contradiction|reflexivity].
Qed.

(** C6: for a New build that is not being cancelled and whose output
    names an image stream with a backing repository, HandleBuild leaves
    the build with status Pending and with the resolved reference in its
    output: the repository when the build has no tag, repository:tag
    otherwise. The strategy is called with a build that has this status
    and this reference, and it is called whenever the copy of the build
    succeeds. *)
Theorem HandleBuild_resolves_output (build : Build) (w w1 : W)
        (ref : ObjectReference) (repo : imageapi.ImageStream) :
  Status build = BuildStatusNew ->
  Cancelled build = false ->
  To (Output (Parameters build)) = Some ref ->
  GetImageStream (if len0 (RefNamespace ref) then Namespace build
                  else RefNamespace ref) (RefName ref) w = (inl repo, w1) ->
  imageapi.DockerImageRepository (imageapi.Status repo) <> "" ->
  let repository := imageapi.DockerImageRepository (imageapi.Status repo) in
  let tag := Tag (Output (Parameters build)) in
  let r := HandleBuild copy_error build w in
  let build' := snd (result r) in
  Status build' = BuildStatusPending
  /\ (tag = "" ->
      DockerImageReference (Output (Parameters build')) = repository)
  /\ (tag <> "" ->
      DockerImageReference (Output (Parameters build'))
      = repository +:+ ":" +:+ tag)
  /\ build' = pendingWith (composeReference repository tag) build
  /\ (forall given, In (CallCreateBuildPod given) (trace r) ->
      given = build')
  /\ (copy_error build' = None -> In (CallCreateBuildPod build') (trace r)).
Proof.
  intros Hnew Hc Hto Hget Hrepo repository tag r build'.
  assert (Hrun :
    build' = pendingWith (composeReference repository tag) build
    /\ (forall given, In (CallCreateBuildPod given) (trace r) ->
        given = build')
    /\ (copy_error build' = None ->
        In (CallCreateBuildPod build') (trace r))).
  { subst build'.
    assert (Hr : r = HandleBuild copy_error build w) by reflexivity.
    clearbody r. unfold HandleBuild in Hr.
    destruct (decide (Status build <> BuildStatusNew)) as [Hn|_];
      [contradiction|].
    unfold nextBuildStatus in Hr. rewrite Hc in Hr.
    unfold bind at 1 2 in Hr.
    rewrite (resolveOutput_stream build w w1 ref repo Hto Hget Hrepo) in Hr.
    fold repository tag in Hr.
    set (spec := composeReference repository tag) in *.
    unfold Scheme_Copy in Hr.
    change (set_DockerImageReference spec
              (set_Status BuildStatusPending build))
      with (pendingWith spec build) in Hr.
    destruct (copy_error (pendingWith spec build)) as [cerr|] eqn:Hcopy.
    { unmonad. subst r. simpl. rewrite Hcopy. repeat split.
      - intros given [H|[]]. discriminate.
      - intros H. discriminate. }
    unmonad.
    destruct (CreateBuildPod (pendingWith spec build) w1)
      as [[podSpec|serr] w2]; simpl in Hr.
    2:{ subst r. simpl. repeat split.
        - intros given [H|[H|[]]]; congruence.
        - intros _. right. left. reflexivity. }
    destruct (CreatePod (Namespace build) podSpec w2)
      as [[created|perr] w3]; simpl in Hr.
    { destruct (Update (Namespace build) (pendingWith spec build) w3)
        as [u w4]; subst r; simpl.
      repeat split.
      - intros given [H|[H|[H|[H|[]]]]]; congruence.
      - intros _. right. left. reflexivity. }
    destruct (IsAlreadyExists perr); simpl in Hr.
    { destruct (Update (Namespace build) (pendingWith spec build) w3)
        as [u w4]; subst r; simpl.
      repeat split.
      - intros given [H|[H|[H|[H|[]]]]]; congruence.
      - intros _. right. left. reflexivity. }
    subst r; simpl. repeat split.
    - intros given [H|[H|[H|[H|[]]]]]; congruence.
    - intros _. right. left. reflexivity. }
  destruct Hrun as [Hb [Hgiven Hcalled]].
  repeat split; try assumption.
  - rewrite Hb. reflexivity.
  - intros Htag. rewrite Hb. unfold composeReference.
    destruct (decide (tag = "")); [reflexivity|contradiction].
  - intros Htag. rewrite Hb. unfold composeReference.
    destruct (decide (tag = "")); [contradiction|reflexivity].
Qed.


(** C2, as the code has it: for a New build that is being cancelled,
    HandleBuild sets the status to Cancelled, a terminal status, leaves
    the completion timestamp as it was, and persists the build so. *)
Theorem HandleBuild_cancels_without_CompletionTimestamp
        (build : Build) (w : W) :
  Status build = BuildStatusNew ->
  Cancelled build = true ->
  let r := HandleBuild copy_error build w in
  snd (result r) = set_Status BuildStatusCancelled build
  /\ terminal (Status (snd (result r)))
  /\ CompletionTimestamp (snd (result r)) = CompletionTimestamp build
  /\ trace r
     = [CallUpdate (Namespace build)
                   (set_Status BuildStatusCancelled build)].
Proof.
  intros Hnew Hc r. subst r. unfold HandleBuild.
  destruct (decide (Status build <> BuildStatusNew)) as [Hn|_];
    [contradiction|].
  unfold nextBuildStatus. rewrite Hc. unmonad.
  destruct (Update _ _ w) as [u w1]. simpl.
  repeat split. unfold terminal. simpl. tauto.
Qed.


End Admission.

(** ** Cancellation *)

(** C7: for a build whose status is not New, Pending or Running,
    CancelBuild returns no error, leaves the build and the world as they
    are and calls no collaborator: no pod deletion is attempted and no
    persistence call is made. *)
Theorem CancelBuild_not_cancellable_noop
        (build : Build) (pod : kapi.Pod) (w : W) :
  Status build <> BuildStatusNew ->
  Status build <> BuildStatusPending ->
  Status build <> BuildStatusRunning ->
  CancelBuild build pod w = (None, build, w, []).
Proof.
  intros Hn Hp Hr. unfold CancelBuild, isBuildCancellable.
  rewrite !bool_decide_eq_false_2 by assumption.
  reflexivity.
Qed.

(** CancelBuild on a build in a terminal status changes nothing. *)
Lemma CancelBuild_terminal (build : Build) (pod : kapi.Pod) (w : W) :
  terminal (Status build) ->
  CancelBuild build pod w = (None, build, w, []).
Proof.
  intros Ht. unfold CancelBuild.
  rewrite (terminal_not_cancellable build Ht). reflexivity.
Qed.

(** ** The build-deletion reconciler *)

Section BuildDeletion.

Variable BuildLabel : string.

(** C8: HandleBuildDeletion looks the pod up under the build's namespace
    and pod name. A lookup error is returned as it is; when no pod is
    found, or the found pod's build label differs from the build's name,
    nothing is deleted and no error is returned; when the label equals
    the build's name, that pod is deleted and the outcome of the deletion
    is returned. So a pod is deleted only when its label equals the
    build's name. *)
Theorem HandleBuildDeletion_deletes_only_matching_pod
        (build : Build) (w w1 : W)
        (found : option kapi.Pod) (lookupErr : option error) :
  GetPod (Namespace build) (buildutil.GetBuildPodName build) w
    = (found, lookupErr, w1) ->
  let r := HandleBuildDeletion BuildLabel build w in
  let lookup :=
    CallGetPod (Namespace build) (buildutil.GetBuildPodName build) in
  (forall err, lookupErr = Some err ->
     r = (Some err, w1, [lookup]))
  /\ (lookupErr = None -> found = None ->
      r = (None, w1, [lookup]))
  /\ (forall pod, lookupErr = None -> found = Some pod ->
      kapi.Label BuildLabel pod <> Name build ->
      r = (None, w1, [lookup]))
  /\ (forall pod, lookupErr = None -> found = Some pod ->
      kapi.Label BuildLabel pod = Name build ->
      r = (fst (DeletePod (Namespace build) pod w1),
           snd (DeletePod (Namespace build) pod w1),
           [lookup; CallDeletePod (Namespace build) pod]))
  /\ (forall ns pod, In (CallDeletePod ns pod) (trace r) ->
      found = Some pod /\ kapi.Label BuildLabel pod = Name build).
Proof.
  intros Hget r lookup. subst r lookup.
  unfold HandleBuildDeletion. unmonad. rewrite Hget.
  split; [|split; [|split; [|split]]].
  - intros err ->. destruct found; reflexivity.
  - intros -> ->. reflexivity.
  - intros pod -> -> Hne.
    destruct (decide (kapi.Label BuildLabel pod <> Name build));
      [reflexivity|contradiction].
  - intros pod -> -> Heq.
    destruct (decide (kapi.Label BuildLabel pod <> Name build)) as [Hne|_];
      [contradiction|].
    destruct (DeletePod (Namespace build) pod w1) as [[e|] w2]; reflexivity.
  - intros ns pod Hin.
    destruct lookupErr as [e|]; [destruct found|destruct found as [p|]];
      simpl in Hin;
      try (destruct Hin as [Hin|[]]; discriminate).
    destruct (decide (kapi.Label BuildLabel p <> Name build)) as [Hne|Heq];
      simpl in Hin; [destruct Hin as [Hin|[]]; discriminate|].
    destruct (DeletePod (Namespace build) p w1) as [[e|] w2]; simpl in Hin;
      destruct Hin as [Hin|[Hin|[]]]; try discriminate;
      injection Hin as Hns Hpod; subst pod;
      (split; [reflexivity|]);
      destruct (decide (kapi.Label BuildLabel p = Name build)); tauto.
Qed.

End BuildDeletion.

(** ** The pod-loss reconciler *)

(** C9: when the store has the build of a deleted pod, then
    HandleBuildPodDeletion, for a build in a terminal status, updates
    nothing and returns no error; for any other build it sets the status
    to Error, sets the message about the deleted pod (which is not
    empty), sets the completion timestamp, persists that build with one
    Update call, and returns an error exactly when the Update fails. *)
Theorem HandleBuildPodDeletion_found
        (pod : kapi.Pod) (build : Build) (w w1 : W) :
  StoreGet pod w = (Some build, true, None, w1) ->
  let r := HandleBuildPodDeletion pod w in
  (terminal (Status build) ->
     r = (None, Some build, w1, [CallStoreGet pod]))
  /\ (~ terminal (Status build) ->
      let build' := lostPod (Now w1) build in
      snd (result r) = Some build'
      /\ Status build' = BuildStatusError
      /\ Message build'
         = "The Pod for this Build was deleted before the Build completed."
      /\ Message build' <> ""
      /\ CompletionTimestamp build' = Some (Now w1)
      /\ trace r = [CallStoreGet pod; CallUpdate (Namespace build) build']
      /\ world r = snd (Update (Namespace build) build' w1)
      /\ (fst (result r) = None
          <-> fst (Update (Namespace build) build' w1) = None)).
Proof.
  intros Hget r. subst r. unfold HandleBuildPodDeletion.
  unmonad. rewrite Hget. simpl. split.
  - intros Ht. apply terminal_IsBuildComplete in Ht. rewrite Ht.
    reflexivity.
  - intros Hnt.
    assert (buildutil.IsBuildComplete build = false) as Hc.
    { destruct (buildutil.IsBuildComplete build) eqn:E; [|reflexivity].
      apply terminal_IsBuildComplete in E. contradiction. }
    rewrite Hc.
    destruct (decide (Status build <> BuildStatusError)) as [_|He].
    2:{ exfalso. apply Hnt. unfold terminal.
        destruct (decide (Status build = BuildStatusError)); tauto. }
    simpl. unfold lostPod. simpl.
    destruct (Update _ _ w1) as [[e|] w2]; simpl;
      repeat split; try discriminate; try reflexivity.
Qed.


(** ** The pod-status reconciler *)

Lemma checkExitCodes_allZero (infos : list kapi.ContainerStatus)
      (s : BuildStatus) :
  Forall (fun info =>
            match kapi.Termination (kapi.State info) with
            | Some t => kapi.ExitCode t = 0%Z
            | None => True
            end) infos ->
  checkExitCodes infos s = s.
Proof.
  induction 1 as [|info rest Hinfo _ IH]; simpl; [reflexivity|].
  destruct (kapi.Termination (kapi.State info)) as [t|]; [|exact IH].
  rewrite Hinfo. simpl. exact IH.
Qed.

Lemma checkExitCodes_someNonzero (infos : list kapi.ContainerStatus)
      (s : BuildStatus) :
  Exists (fun info =>
            exists t, kapi.Termination (kapi.State info) = Some t
                      /\ kapi.ExitCode t <> 0%Z) infos ->
  checkExitCodes infos s = BuildStatusFailed.
Proof.
  induction 1 as [info rest [t [Ht Hne]]|info rest _ IH]; simpl.
  - rewrite Ht. apply Z.eqb_neq in Hne. rewrite Hne. reflexivity.
  - destruct (kapi.Termination (kapi.State info)) as [t|]; [|exact IH].
    destruct (negb (kapi.ExitCode t =? 0)%Z); [reflexivity|exact IH].
Qed.

(** When HandlePod finds a build that is not being cancelled, the build
    leaves the handler in the status computed from the pod. *)
Lemma HandlePod_status (pod : kapi.Pod) (build : Build) (w w1 : W) :
  StoreGet pod w = (Some build, true, None, w1) ->
  Cancelled build = false ->
  exists build',
    snd (result (HandlePod pod w)) = Some build'
    /\ Status build' = podNextStatus build pod.
Proof.
  intros Hget Hc. unfold HandlePod. unmonad. rewrite Hget. simpl.
  rewrite Hc.
  destruct (decide (Status build <> podNextStatus build pod)) as [Hne|Heq].
  - destruct (buildutil.IsBuildComplete _); simpl;
      match goal with
      | |- context [decide (?a = ?b)] => destruct (decide (a = b))
      end; simpl;
      match goal with
      | |- context [Update ?ns ?b ?w] =>
          destruct (Update ns b w) as [[?|] ?]
      end; simpl; eexists; split; reflexivity.
  - simpl. exists build. split; [reflexivity|].
    destruct (decide (Status build = podNextStatus build pod)); tauto.
Qed.

(** C5: for a pod in phase Succeeded or Failed whose build is found and
    is not being cancelled, the status HandlePod computes, and leaves in
    the build, is Complete when every container has exit code zero or no
    termination record, and Failed when some container terminated with a
    nonzero exit code. *)
Theorem HandlePod_finished_pod (pod : kapi.Pod) (build : Build) (w w1 : W) :
  StoreGet pod w = (Some build, true, None, w1) ->
  Cancelled build = false ->
  kapi.Phase (kapi.Status pod) = kapi.PodSucceeded
  \/ kapi.Phase (kapi.Status pod) = kapi.PodFailed ->
  (allExitZero pod ->
     podNextStatus build pod = BuildStatusComplete
     /\ exists build', snd (result (HandlePod pod w)) = Some build'
                       /\ Status build' = BuildStatusComplete)
  /\ (someExitNonzero pod ->
      podNextStatus build pod = BuildStatusFailed
      /\ exists build', snd (result (HandlePod pod w)) = Some build'
                        /\ Status build' = BuildStatusFailed).
Proof.
  intros Hget Hc Hphase.
  destruct (HandlePod_status pod build w w1 Hget Hc) as [b' [Hres Hst]].
  assert (podNextStatus build pod
          = checkExitCodes (kapi.ContainerStatuses (kapi.Status pod))
                           BuildStatusComplete) as Hnext.
  { unfold podNextStatus. destruct Hphase as [-> | ->]; reflexivity. }
  split; intros Hcodes.
  - assert (podNextStatus build pod = BuildStatusComplete) as Hn.
    { rewrite Hnext. apply checkExitCodes_allZero. exact Hcodes. }
    split; [exact Hn|]. exists b'. split; [exact Hres|congruence].
  - assert (podNextStatus build pod = BuildStatusFailed) as Hn.
    { rewrite Hnext. apply checkExitCodes_someNonzero. exact Hcodes. }
    split; [exact Hn|]. exists b'. split; [exact Hres|congruence].
Qed.


(** ** Terminal statuses *)

(** C1, as the code has it: HandlePod does not check for a terminal
    status. For a build in a terminal status that is not being cancelled
    and a pod in phase Running, it sets the status to Running, stamps the
    start time and persists the build. *)
Theorem HandlePod_overwrites_terminal_status
        (pod : kapi.Pod) (build : Build) (w w1 : W) :
  StoreGet pod w = (Some build, true, None, w1) ->
  Cancelled build = false ->
  terminal (Status build) ->
  kapi.Phase (kapi.Status pod) = kapi.PodRunning ->
  exists build',
    snd (result (HandlePod pod w)) = Some build'
    /\ Status build' = BuildStatusRunning
    /\ Status build' <> Status build
    /\ StartTimestamp build' = Some (Now w1)
    /\ In (CallUpdate (Namespace build) build') (trace (HandlePod pod w)).
Proof.
  intros Hget Hc Ht Hphase.
  assert (Status build <> BuildStatusRunning) as Hnr.
  { unfold terminal in Ht. intros E. rewrite E in Ht.
    destruct Ht as [H|[H|[H|H]]]; discriminate. }
  exists (set_StartTimestamp (Some (Now w1))
            (set_Status BuildStatusRunning build)).
  unfold HandlePod. unmonad. rewrite Hget. simpl. rewrite Hc.
  unfold podNextStatus. rewrite Hphase.
  destruct (decide (Status build <> BuildStatusRunning)) as [_|Hn];
    [|contradiction].
  simpl.
  destruct (Update _ _ w1) as [[e|] w2]; simpl;
    repeat split; try reflexivity; try congruence;
    right; left; reflexivity.
Qed.

(** HandleBuild, CancelBuild and HandleBuildPodDeletion each check the
    status first and leave a build in a terminal status as it is. *)
Lemma terminal_kept_by_guarded_handlers
      (copy_error : Build -> option error)
      (build : Build) (pod : kapi.Pod) (w w1 : W) :
  terminal (Status build) ->
  snd (result (HandleBuild copy_error build w)) = build
  /\ snd (result (CancelBuild build pod w)) = build
  /\ (StoreGet pod w = (Some build, true, None, w1) ->
      snd (result (HandleBuildPodDeletion pod w)) = Some build).
Proof.
  intros Ht. repeat split.
  - unfold HandleBuild.
    destruct (decide (Status build <> BuildStatusNew)) as [_|Hn];
      [reflexivity|].
    exfalso. destruct (decide (Status build = BuildStatusNew)) as [E|E];
      [|contradiction].
    unfold terminal in Ht. rewrite E in Ht.
    destruct Ht as [H|[H|[H|H]]]; discriminate.
  - rewrite (CancelBuild_terminal build pod w Ht). reflexivity.
  - intros Hget. unfold HandleBuildPodDeletion. unmonad. rewrite Hget.
    simpl. apply terminal_IsBuildComplete in Ht. rewrite Ht. reflexivity.
Qed.

End Properties.

(** * Redelivery on the in-memory cluster *)

Section Redelivery.

Import InMemory.

Variable strategy : Build -> kapi.Pod + error.
Variable copy_error : Build -> option error.

Local Abbreviation handle :=
  (HandleBuild (BS := pureStrategy strategy) copy_error).

Lemma resolveOutput_cluster (build : Build) (c : Cluster) :
  world (resolveOutput build c) = c.
Proof.
  unfold resolveOutput.
  destruct (To (Output (Parameters build))) as [ref|]; [|reflexivity].
  unmonad. unfold getImageStream.
  destruct (find _ (imageStreams c)) as [s|]; simpl; [|reflexivity].
  destruct (len0 _); [reflexivity|].
  destruct (len0 _); reflexivity.
Qed.

Lemma resolveOutput_streams (build : Build) (c c' : Cluster) :
  imageStreams c = imageStreams c' ->
  result (resolveOutput build c) = result (resolveOutput build c').
Proof.
  intros Hs. unfold resolveOutput.
  destruct (To (Output (Parameters build))) as [ref|]; [|reflexivity].
  unmonad. unfold getImageStream. rewrite Hs.
  destruct (find _ (imageStreams c')) as [s|]; simpl; [|reflexivity].
  destruct (len0 _); [reflexivity|].
  destruct (len0 _); reflexivity.
Qed.

Lemma update_frame (namespace : string) (build : Build) (c : Cluster) :
  pods (snd (update namespace build c)) = pods c
  /\ imageStreams (snd (update namespace build c)) = imageStreams c.
Proof.
  unfold update. destruct (existsb _ (builds c)); split; reflexivity.
Qed.

Ltac frame_update :=
  match goal with
  | |- context [update ?ns ?b ?w] =>
      destruct (update_frame ns b w) as [? ?];
      destruct (update ns b w) as [? ?]; simpl in *
  end.

Lemma podIs_inNamespace (namespace : string) (pod : kapi.Pod) :
  podIs namespace (kapi.Name pod) (inNamespace namespace pod) = true.
Proof.
  unfold podIs, inNamespace. simpl. rewrite !String.eqb_refl. reflexivity.
Qed.

Lemma filter_absent (p : kapi.Pod -> bool) (l : list kapi.Pod) :
  existsb p l = false -> List.filter p l = [].
Proof.
  induction l as [|x l IH]; simpl; [reflexivity|].
  destruct (p x); simpl; [discriminate|exact IH].
Qed.

(** What one run of HandleBuild does to the pods of the cluster, for a
    New build: nothing, unless it is not cancelled, the destination
    resolves, the copy succeeds, the strategy gives a pod and no pod of
    that name is there: then that pod is added. *)
Lemma handle_pods (build : Build) (c : Cluster) :
  Status build = BuildStatusNew ->
  pods (world (handle build c)) = pods c
  \/ exists spec podSpec,
      Cancelled build = false
      /\ result (resolveOutput build c) = inl spec
      /\ copy_error (pendingWith spec build) = None
      /\ strategy (pendingWith spec build) = inl podSpec
      /\ existsb (podIs (Namespace build) (kapi.Name podSpec)) (pods c)
         = false
      /\ pods (world (handle build c))
         = pods c ++ [inNamespace (Namespace build) podSpec]
      /\ imageStreams (world (handle build c)) = imageStreams c.
Proof.
  intros Hnew.
  remember (handle build c) as r eqn:Hr.
  unfold HandleBuild in Hr.
  destruct (decide (Status build <> BuildStatusNew)) as [Hn|_];
    [contradiction|].
  unfold nextBuildStatus in Hr.
  destruct (Cancelled build) eqn:Hc.
  { left. unmonad. revert Hr. frame_update. intros ->. assumption. }
  pose proof (resolveOutput_cluster build c) as Hw.
  unfold bind at 1 2 in Hr. unfold world, result in *.
  destruct (resolveOutput build c) as [[[spec|err] c1] t1]; simpl in Hw;
    subst c1; [|left; subst r; reflexivity].
  unfold Scheme_Copy in Hr.
  change (set_DockerImageReference spec
            (set_Status BuildStatusPending build))
    with (pendingWith spec build) in Hr.
  destruct (copy_error (pendingWith spec build)) as [cerr|] eqn:Hcopy;
    [left; subst r; reflexivity|].
  unmonad.
  destruct (strategy (pendingWith spec build)) as [podSpec|serr] eqn:Hs;
    simpl in Hr; [|left; subst r; reflexivity].
  unfold createPod in Hr.
  destruct (existsb (podIs (Namespace build) (kapi.Name podSpec)) (pods c))
    eqn:Hex; simpl in Hr.
  { left. revert Hr. frame_update. intros ->. assumption. }
  right. exists spec, podSpec.
  revert Hr. frame_update. intros ->. simpl.
  repeat split; try assumption; try reflexivity.
Qed.

(** A run of HandleBuild on a New build for which everything up to pod
    creation succeeds and whose pod is already there: the creation is
    attempted once, answers AlreadyExists, and the handler returns no
    error and leaves the pods as they are. *)
Lemma handle_existing_pod (build : Build) (c : Cluster)
      (spec : string) (podSpec : kapi.Pod) :
  Status build = BuildStatusNew ->
  Cancelled build = false ->
  result (resolveOutput build c) = inl spec ->
  copy_error (pendingWith spec build) = None ->
  strategy (pendingWith spec build) = inl podSpec ->
  existsb (podIs (Namespace build) (kapi.Name podSpec)) (pods c) = true ->
  fst (result (handle build c)) = None
  /\ pods (world (handle build c)) = pods c
  /\ List.filter isCreatePod (trace (handle build c))
     = [CallCreatePod (Namespace build) podSpec]
  /\ exists err,
      fst (createPod (Namespace build) podSpec c) = inr err
      /\ IsAlreadyExists err = true.
Proof.
  intros Hnew Hc Hres Hcopy Hs Hex.
  remember (handle build c) as r eqn:Hr.
  unfold HandleBuild in Hr.
  destruct (decide (Status build <> BuildStatusNew)) as [Hn|_];
    [contradiction|].
  unfold nextBuildStatus in Hr. rewrite Hc in Hr.
  pose proof (resolveOutput_cluster build c) as Hw.
  pose proof (resolveOutput_trace build c) as [_ Hnc].
  unfold bind at 1 2 in Hr. unfold world, result, trace in *.
  destruct (resolveOutput build c) as [[res c1] t1]; simpl in Hw, Hres, Hnc;
    subst c1 res.
  unfold Scheme_Copy in Hr.
  change (set_DockerImageReference spec
            (set_Status BuildStatusPending build))
    with (pendingWith spec build) in Hr.
  rewrite Hcopy in Hr. unmonad. rewrite Hs in Hr. simpl in Hr.
  unfold createPod in Hr |- *. rewrite Hex in Hr |- *. simpl in Hr |- *.
  revert Hr. frame_update. intros ->. simpl.
  repeat split; try assumption.
  - rewrite !List.filter_app. simpl.
    assert (List.filter isCreatePod t1 = []) as ->; [|reflexivity].
    clear -Hnc. induction Hnc as [|x l Hx _ IH]; simpl; [reflexivity|].
    rewrite Hx. exact IH.
  - eexists. split; reflexivity.
Qed.

(** On the in-memory cluster, a run of HandleBuild that returns an error
    leaves the persisted builds as they are. *)
Lemma handle_error_keeps_builds (build : Build) (c : Cluster) (err : error) :
  fst (result (handle build c)) = Some err ->
  builds (world (handle build c)) = builds c.
Proof.
  remember (handle build c) as r eqn:Hr.
  unfold HandleBuild in Hr.
  destruct (decide (Status build <> BuildStatusNew)) as [Hn|_].
  { subst r. discriminate. }
  unfold nextBuildStatus in Hr.
  destruct (Cancelled build) eqn:Hc.
  { unmonad. revert Hr. frame_update. intros ->. discriminate. }
  pose proof (resolveOutput_cluster build c) as Hw.
  unfold bind at 1 2 in Hr. unfold world, result in *.
  destruct (resolveOutput build c) as [[[spec|rerr] c1] t1]; simpl in Hw;
    subst c1; [|subst r; reflexivity].
  unfold Scheme_Copy in Hr.
  destruct (copy_error _) as [cerr|]; [subst r; reflexivity|].
  unmonad.
  destruct (strategy _) as [podSpec|serr]; simpl in Hr;
    [|subst r; reflexivity].
  unfold createPod in Hr.
  destruct (existsb _ (pods c)); simpl in Hr.
  { revert Hr. frame_update. intros ->. discriminate. }
  revert Hr. frame_update. intros ->. discriminate.
Qed.


(** C3: on the in-memory cluster, let HandleBuild run on a New build and
    create the build's pod. When it runs again on that same New build,
    it returns no error, it attempts the creation once and the pod
    manager answers AlreadyExists, and the pods are those the first run
    left: the ones there before and the one pod of the build, the only
    pod under its namespace and name. *)
Theorem HandleBuild_redelivery_one_pod (build : Build) (c : Cluster) :
  Status build = BuildStatusNew ->
  length (pods (world (handle build c))) = S (length (pods c)) ->
  let c1 := world (handle build c) in
  let r2 := handle build c1 in
  fst (result r2) = None
  /\ pods (world r2) = pods c1
  /\ exists pod podSpec err,
      pods (world r2) = pods c ++ [pod]
      /\ podsNamed (kapi.Namespace pod) (kapi.Name pod) (world r2) = [pod]
      /\ List.filter isCreatePod (trace r2)
         = [CallCreatePod (Namespace build) podSpec]
      /\ fst (createPod (Namespace build) podSpec c1) = inr err
      /\ IsAlreadyExists err = true.
Proof.
  intros Hnew Hlen c1 r2.
  destruct (handle_pods build c Hnew) as
    [Hsame|[spec [podSpec [Hc [Hres [Hcopy [Hs [Hex [Hpods Hstreams]]]]]]]]].
  { rewrite Hsame in Hlen. lia. }
  assert (result (resolveOutput build c1) = inl spec) as Hres1.
  { rewrite <- Hres. apply resolveOutput_streams. exact Hstreams. }
  assert (existsb (podIs (Namespace build) (kapi.Name podSpec)) (pods c1)
          = true) as Hex1.
  { subst c1. rewrite Hpods, existsb_app. simpl.
    rewrite podIs_inNamespace. rewrite orb_true_r. reflexivity. }
  destruct (handle_existing_pod build c1 spec podSpec
              Hnew Hc Hres1 Hcopy Hs Hex1)
    as [Herr [Hkeep [Hcalls [err [Hcreate Hexists]]]]].
  fold r2 in Herr, Hkeep, Hcalls.
  split; [exact Herr|]. split; [exact Hkeep|].
  exists (inNamespace (Namespace build) podSpec), podSpec, err.
  repeat split; try assumption.
  - rewrite Hkeep. exact Hpods.
  - unfold podsNamed. rewrite Hkeep. fold c1 in Hpods. rewrite Hpods.
    rewrite List.filter_app. simpl.
    rewrite podIs_inNamespace.
    rewrite (filter_absent _ _ Hex). reflexivity.
Qed.

End Redelivery.

(** * The properties on the example cluster *)

Section Witnesses.

Import InMemory Examples.

(** HandleBuild on a Pending build. *)
Lemma HandleBuild_not_New_noop_witness :
  Status b1Pending <> BuildStatusNew
  /\ HandleBuild neverFails b1Pending (clusterOf b1Pending)
     = (None, b1Pending, clusterOf b1Pending, []).
Proof.
  assert (Status b1Pending <> BuildStatusNew) as H by discriminate.
  split; [exact H|].
  exact (HandleBuild_not_New_noop neverFails b1Pending
           (clusterOf b1Pending) H).
Defined.

(** HandleBuild on a build whose image stream does not exist. *)
Lemma HandleBuild_error_noUpdate_witness :
  fst (result (HandleBuild neverFails b2 (clusterOf b2)))
  = Some (Errorf "Build failed with error ns/b2: the referenced output image stream ns/nope does not exist")
  /\ Status b2 = BuildStatusNew
  /\ noUpdate (trace (HandleBuild neverFails b2 (clusterOf b2))).
Proof.
  assert (fst (result (HandleBuild neverFails b2 (clusterOf b2)))
          = Some (Errorf "Build failed with error ns/b2: the referenced output image stream ns/nope does not exist"))
    as H by reflexivity.
  split; [exact H|].
  exact (HandleBuild_error_noUpdate neverFails b2 (clusterOf b2) _ H).
Defined.

(** The spec's example: "is1" resolves to "registry:5000/ns/is1" and the
    tag is "v1". *)
Lemma HandleBuild_resolves_output_witness :
  Status b1 = BuildStatusNew
  /\ Cancelled b1 = false
  /\ To (Output (Parameters b1)) = Some (mkObjectReference "" "is1")
  /\ GetImageStream "ns" "is1" (clusterOf b1) = (inl is1, clusterOf b1)
  /\ imageapi.DockerImageRepository (imageapi.Status is1) <> ""
  /\ Status (snd (result (HandleBuild neverFails b1 (clusterOf b1))))
     = BuildStatusPending
  /\ DockerImageReference
       (Output (Parameters
                  (snd (result (HandleBuild neverFails b1 (clusterOf b1))))))
     = "registry:5000/ns/is1:v1"
  /\ In (CallCreateBuildPod
           (pendingWith "registry:5000/ns/is1:v1" b1))
        (trace (HandleBuild neverFails b1 (clusterOf b1))).
Proof.
  assert (imageapi.DockerImageRepository (imageapi.Status is1) <> "")
    as Hrepo by discriminate.
  assert (Tag (Output (Parameters b1)) <> "") as Htag by discriminate.
  assert (GetImageStream "ns" "is1" (clusterOf b1) = (inl is1, clusterOf b1))
    as Hget by (vm_compute; reflexivity).
  destruct (HandleBuild_resolves_output neverFails b1
              (clusterOf b1) (clusterOf b1)
              (mkObjectReference "" "is1") is1
              eq_refl eq_refl eq_refl Hget Hrepo)
    as [Hst [_ [Hspec [_ [_ Hcalled]]]]].
  split; [reflexivity|]. split; [reflexivity|]. split; [reflexivity|].
  split; [exact Hget|]. split; [exact Hrepo|]. split; [exact Hst|].
  split; [exact (Hspec Htag)|exact (Hcalled eq_refl)].
Defined.

(** CancelBuild on a Complete build. *)
Lemma CancelBuild_not_cancellable_noop_witness :
  Status b1Complete <> BuildStatusNew
  /\ Status b1Complete <> BuildStatusPending
  /\ Status b1Complete <> BuildStatusRunning
  /\ CancelBuild b1Complete (podOf kapi.PodRunning []) (clusterOf b1Complete)
     = (None, b1Complete, clusterOf b1Complete, []).
Proof.
  assert (Status b1Complete <> BuildStatusNew) as Hn by discriminate.
  assert (Status b1Complete <> BuildStatusPending) as Hp by discriminate.
  assert (Status b1Complete <> BuildStatusRunning) as Hr by discriminate.
  split; [exact Hn|]. split; [exact Hp|]. split; [exact Hr|].
  exact (CancelBuild_not_cancellable_noop b1Complete
           (podOf kapi.PodRunning []) (clusterOf b1Complete) Hn Hp Hr).
Defined.

(** Deleting [b1] while a pod of its name carries another build's label. *)
Lemma HandleBuildDeletion_deletes_only_matching_pod_witness :
  GetPod (Namespace b1) (buildutil.GetBuildPodName b1) clusterWithStrayPod
  = (Some strayPod, None, clusterWithStrayPod)
  /\ kapi.Label exampleLabel strayPod <> Name b1
  /\ HandleBuildDeletion exampleLabel b1 clusterWithStrayPod
     = (None, clusterWithStrayPod, [CallGetPod "ns" "b1"]).
Proof.
  assert (kapi.Label exampleLabel strayPod <> Name b1) as Hne
    by (vm_compute; discriminate).
  assert (GetPod (Namespace b1) (buildutil.GetBuildPodName b1)
                 clusterWithStrayPod
          = (Some strayPod, None, clusterWithStrayPod)) as Hget
    by (vm_compute; reflexivity).
  destruct (HandleBuildDeletion_deletes_only_matching_pod exampleLabel b1
              clusterWithStrayPod clusterWithStrayPod
              (Some strayPod) None Hget)
    as [_ [_ [Hstray _]]].
  split; [exact Hget|]. split; [exact Hne|].
  exact (Hstray strayPod eq_refl eq_refl Hne).
Defined.

(** The pod of the Running build [b1] is deleted. *)
Lemma HandleBuildPodDeletion_found_witness :
  StoreGet (podOf kapi.PodRunning []) (clusterOf b1Running)
  = (Some b1Running, true, None, clusterOf b1Running)
  /\ ~ terminal (Status b1Running)
  /\ result (HandleBuildPodDeletion (podOf kapi.PodRunning [])
                                    (clusterOf b1Running))
     = (None, Some (lostPod 100%Z b1Running))
  /\ Status (lostPod 100%Z b1Running) = BuildStatusError
  /\ CompletionTimestamp (lostPod 100%Z b1Running) = Some 100%Z.
Proof.
  assert (~ terminal (Status b1Running)) as Hnt.
  { intros [H|[H|[H|H]]]; discriminate. }
  assert (StoreGet (podOf kapi.PodRunning []) (clusterOf b1Running)
          = (Some b1Running, true, None, clusterOf b1Running)) as Hget
    by (vm_compute; reflexivity).
  destruct (HandleBuildPodDeletion_found (podOf kapi.PodRunning [])
              b1Running (clusterOf b1Running) (clusterOf b1Running)
              Hget) as [_ Hlost].
  destruct (Hlost Hnt) as [Hres [Hst [_ [_ [Hts [_ [_ Herr]]]]]]].
  split; [exact Hget|]. split; [exact Hnt|].
  split; [|split; [exact Hst|exact Hts]].
  apply injective_projections; simpl.
  - apply Herr. reflexivity.
  - exact Hres.
Defined.

(** A Succeeded pod with exit codes 0 and 1, and one with exit codes 0
    and 0. *)
Lemma HandlePod_finished_pod_witness :
  StoreGet (podOf kapi.PodSucceeded [0; 1]%Z) (clusterOf b1Running)
  = (Some b1Running, true, None, clusterOf b1Running)
  /\ Cancelled b1Running = false
  /\ someExitNonzero (podOf kapi.PodSucceeded [0; 1]%Z)
  /\ podNextStatus b1Running (podOf kapi.PodSucceeded [0; 1]%Z)
     = BuildStatusFailed
  /\ allExitZero (podOf kapi.PodSucceeded [0; 0]%Z)
  /\ podNextStatus b1Running (podOf kapi.PodSucceeded [0; 0]%Z)
     = BuildStatusComplete.
Proof.
  assert (someExitNonzero (podOf kapi.PodSucceeded [0; 1]%Z)) as Hsome.
  { apply Exists_cons_tl, Exists_cons_hd.
    eexists. split; [reflexivity|discriminate]. }
  assert (allExitZero (podOf kapi.PodSucceeded [0; 0]%Z)) as Hall.
  { repeat constructor. }
  assert (StoreGet (podOf kapi.PodSucceeded [0; 1]%Z) (clusterOf b1Running)
          = (Some b1Running, true, None, clusterOf b1Running)) as Hget1
    by (vm_compute; reflexivity).
  assert (StoreGet (podOf kapi.PodSucceeded [0; 0]%Z) (clusterOf b1Running)
          = (Some b1Running, true, None, clusterOf b1Running)) as Hget0
    by (vm_compute; reflexivity).
  destruct (HandlePod_finished_pod (podOf kapi.PodSucceeded [0; 1]%Z)
              b1Running (clusterOf b1Running) (clusterOf b1Running)
              Hget1 eq_refl (or_introl eq_refl)) as [_ Hfailed].
  destruct (HandlePod_finished_pod (podOf kapi.PodSucceeded [0; 0]%Z)
              b1Running (clusterOf b1Running) (clusterOf b1Running)
              Hget0 eq_refl (or_introl eq_refl)) as [Hcomplete _].
  split; [exact Hget1|]. split; [reflexivity|]. split; [exact Hsome|].
  split; [exact (proj1 (Hfailed Hsome))|].
  split; [exact Hall|].
  exact (proj1 (Hcomplete Hall)).
Defined.

(** HandleBuild twice on [b1]. *)
Lemma HandleBuild_redelivery_one_pod_witness :
  let c1 := world (HandleBuild neverFails b1 (clusterOf b1)) in
  Status b1 = BuildStatusNew
  /\ length (pods c1) = S (length (pods (clusterOf b1)))
  /\ fst (result (HandleBuild neverFails b1 c1)) = None
  /\ pods (world (HandleBuild neverFails b1 c1)) = pods c1.
Proof.
  intros c1.
  assert (length (pods c1) = S (length (pods (clusterOf b1)))) as Hlen
    by (vm_compute; reflexivity).
  destruct (HandleBuild_redelivery_one_pod examplePod neverFails b1
              (clusterOf b1) eq_refl Hlen) as [Herr [Hpods _]].
  split; [reflexivity|]. split; [exact Hlen|].
  split; [exact Herr|exact Hpods].
Defined.

(** A Running pod event for the Complete build [b1]. *)
Lemma HandlePod_overwrites_terminal_status_witness :
  StoreGet (podOf kapi.PodRunning []) (clusterOf b1Complete)
  = (Some b1Complete, true, None, clusterOf b1Complete)
  /\ Cancelled b1Complete = false
  /\ terminal (Status b1Complete)
  /\ kapi.Phase (kapi.Status (podOf kapi.PodRunning [])) = kapi.PodRunning
  /\ exists build',
      snd (result (HandlePod (podOf kapi.PodRunning [])
                             (clusterOf b1Complete))) = Some build'
      /\ Status build' = BuildStatusRunning.
Proof.
  assert (terminal (Status b1Complete)) as Ht by (left; reflexivity).
  assert (StoreGet (podOf kapi.PodRunning []) (clusterOf b1Complete)
          = (Some b1Complete, true, None, clusterOf b1Complete)) as Hget
    by (vm_compute; reflexivity).
  destruct (HandlePod_overwrites_terminal_status (podOf kapi.PodRunning [])
              b1Complete (clusterOf b1Complete) (clusterOf b1Complete)
              Hget eq_refl Ht eq_refl) as [build' [Hres [Hst _]]].
  split; [exact Hget|]. split; [reflexivity|]. split; [exact Ht|].
  split; [reflexivity|].
  exists build'. split; [exact Hres|exact Hst].
Defined.

(** HandleBuild on the New build [b1] with a cancellation request. *)
Lemma HandleBuild_cancels_without_CompletionTimestamp_witness :
  Status b1Cancelling = BuildStatusNew
  /\ Cancelled b1Cancelling = true
  /\ Status (snd (result (HandleBuild neverFails b1Cancelling
                                      (clusterOf b1Cancelling))))
     = BuildStatusCancelled
  /\ CompletionTimestamp
       (snd (result (HandleBuild neverFails b1Cancelling
                                 (clusterOf b1Cancelling))))
     = None.
Proof.
  destruct (HandleBuild_cancels_without_CompletionTimestamp neverFails
              b1Cancelling (clusterOf b1Cancelling) eq_refl eq_refl)
    as [Hb [_ [Hts _]]].
  split; [reflexivity|]. split; [reflexivity|].
  split; [rewrite Hb; reflexivity|exact Hts].
Defined.

End Witnesses.

(** * Further properties of the reconcilers *)

(** Unfold the handler monad in a hypothesis. *)
Ltac open_monad H :=
  unfold doGetImageStream, doCreateBuildPod, doCreatePod, doDeletePod,
    doGetPod, doUpdate, doStoreGet, doEventf, utilNow in H;
  unfold bind, call, ret in H;
  cbv zeta in H.

(** Unfold the handlers and the handler monad in a hypothesis. *)
Ltac open_run H :=
  unfold HandleBuild, nextBuildStatus, resolveOutput, Scheme_Copy,
    HandlePod, CancelBuild, markCancelled, HandleBuildPodDeletion,
    HandleBuildDeletion in H;
  open_monad H.

(** Follow every branch of the run described by a hypothesis, innermost
    test first. *)
Ltac split_run H :=
  repeat (simpl in H;
          match type of H with
          | context [match ?x with _ => _ end] =>
              lazymatch x with
              | context [match _ with _ => _ end] => fail
              | _ => destruct x eqn:?
              end
          end);
  simpl in H.

(** All the runs of a handler: name the run, open it, follow its branches. *)
Ltac all_runs r :=
  let Hr := fresh "Hr" in
  remember r as run eqn:Hr;
  open_run Hr; split_run Hr; subst run;
  unfold result, world, trace; simpl.

(** A status test that the hypotheses decide. *)
Ltac by_status :=
  match goal with
  | |- context [decide (?a <> ?b)] =>
      let n := fresh "n" in
      destruct (decide (a <> b)) as [n|n];
      [try reflexivity
      |exfalso; first [contradiction | apply n; simpl; congruence]]
  end.

(** From the negated inequality the guard of HandleBuild leaves behind. *)
Ltac status_is_New :=
  match goal with
  | n : ~ Status ?b <> BuildStatusNew |- _ =>
      let E := fresh "Enew" in
      assert (Status b = BuildStatusNew) as E
        by (destruct (decide (Status b = BuildStatusNew));
            [assumption|exfalso; apply n; assumption])
  end.

Section Coverage.

Context {W : Type}.
Context {BU : BuildUpdater W} {PM : podManager W} {BS : BuildStrategy W}
        {ISC : imageStreamClient W} {ST : BuildStore W}
        {ER : EventRecorder W} {CK : Clock W}.

Section AdmissionCoverage.

Variable copy_error : Build -> option error.

(** X1: HandleBuild changes nothing of a build but its status and the
    DockerImageReference of its output: name, namespace, cancellation flag,
    message, both timestamps, and the output's image stream reference and
    tag are those of the build it was given. *)
Theorem HandleBuild_keeps_identity (build : Build) (w : W) :
  let build' := snd (result (HandleBuild copy_error build w)) in
  Name build' = Name build
  /\ Namespace build' = Namespace build
  /\ Cancelled build' = Cancelled build
  /\ Message build' = Message build
  /\ StartTimestamp build' = StartTimestamp build
  /\ CompletionTimestamp build' = CompletionTimestamp build
  /\ To (Output (Parameters build')) = To (Output (Parameters build))
  /\ Tag (Output (Parameters build')) = Tag (Output (Parameters build)).
Proof.
  intros build'. subst build'.
  all_runs (HandleBuild copy_error build w); repeat split; congruence.
Qed.

(** X2: a build that HandleBuild has handled without error is never
    handled again: whatever its status was, HandleBuild on the build it
    left does nothing, in any world. *)
Theorem HandleBuild_consumed_once (build : Build) (w w' : W) :
  fst (result (HandleBuild copy_error build w)) = None ->
  HandleBuild copy_error (snd (result (HandleBuild copy_error build w))) w'
  = (None, snd (result (HandleBuild copy_error build w)), w', []).
Proof.
  all_runs (HandleBuild copy_error build w); intros Hnil;
    try discriminate; unfold HandleBuild; by_status.
Qed.

(** X3: when HandleBuild fails after it has called the strategy (the
    strategy or the pod creation failed), the build is left Pending, there
    is no rollback and nothing is persisted, and HandleBuild on the build
    it left does nothing: a retry with that object creates no pod. *)
Theorem HandleBuild_late_failure_sticks
        (build given : Build) (w w' : W) (err : error) :
  fst (result (HandleBuild copy_error build w)) = Some err ->
  In (CallCreateBuildPod given) (trace (HandleBuild copy_error build w)) ->
  let build' := snd (result (HandleBuild copy_error build w)) in
  Status build = BuildStatusNew
  /\ Status build' = BuildStatusPending
  /\ build' = given
  /\ noUpdate (trace (HandleBuild copy_error build w))
  /\ HandleBuild copy_error build' w' = (None, build', w', []).
Proof.
  intros Herr Hin build'. subst build'. revert Herr Hin.
  all_runs (HandleBuild copy_error build w); intros Herr Hin;
    try discriminate;
    try (exfalso; simpl in Hin; rewrite ?in_app_iff in Hin; simpl in Hin;
         intuition discriminate);
    status_is_New;
    (split; [assumption|]); (split; [reflexivity|]);
    (split; [rewrite ?in_app_iff in Hin; simpl in Hin;
             intuition congruence|]);
    (split; [unfold noUpdate; rewrite ?Forall_app;
             repeat split; repeat constructor
            |unfold HandleBuild; by_status]).
Qed.


(** X5: one run of HandleBuild makes at most one CreatePod call, and makes
    one only for a New build that is not being cancelled, in the build's
    namespace. *)
Theorem HandleBuild_at_most_one_pod (build : Build) (w : W) :
  length (List.filter isCreatePod (trace (HandleBuild copy_error build w)))
  <= 1
  /\ forall ns pod,
      In (CallCreatePod ns pod) (trace (HandleBuild copy_error build w)) ->
      ns = Namespace build
      /\ Status build = BuildStatusNew
      /\ Cancelled build = false.
Proof.
  all_runs (HandleBuild copy_error build w);
    (split; [rewrite ?List.filter_app; simpl; lia|]);
    intros ns pod Hin; rewrite ?in_app_iff in Hin; simpl in Hin;
    try (exfalso; intuition discriminate);
    status_is_New;
    repeat split; try assumption; intuition congruence.
Qed.


(** Open a run of HandleBuild up to the destination lookup. *)
Ltac open_admission H :=
  unfold HandleBuild, nextBuildStatus, Scheme_Copy in H; open_monad H.

(** X7: when the output names an image stream and the lookup fails, or
    the stream has no repository, HandleBuild returns an error, leaves the
    build as it was given (still New, output untouched) and makes no call
    but the lookup. When the lookup answers NotFound the error says that
    the stream does not exist and does not carry the lookup error's text. *)
Theorem HandleBuild_resolution_failure
        (build : Build) (w w1 : W) (ref : ObjectReference)
        (r : imageapi.ImageStream + error) :
  Status build = BuildStatusNew ->
  Cancelled build = false ->
  To (Output (Parameters build)) = Some ref ->
  let ns := if len0 (RefNamespace ref) then Namespace build
            else RefNamespace ref in
  GetImageStream ns (RefName ref) w = (r, w1) ->
  match r with
  | inr _ => True
  | inl repo => imageapi.DockerImageRepository (imageapi.Status repo) = ""
  end ->
  let run := HandleBuild copy_error build w in
  snd (result run) = build
  /\ world run = w1
  /\ trace run = [CallGetImageStream ns (RefName ref)]
  /\ (exists err, fst (result run) = Some err)
  /\ (forall e, r = inr e -> IsNotFound e = true ->
      fst (result run)
      = Some (Errorf ("Build failed with error "
                        +:+ Namespace build +:+ "/" +:+ Name build +:+ ": "
                        +:+ "the referenced output image stream "
                        +:+ ns +:+ "/" +:+ RefName ref
                        +:+ " does not exist"))).
Proof.
  intros Hnew Hc Hto ns Hget Hr run.
  assert (Hrun : run = HandleBuild copy_error build w) by reflexivity.
  clearbody run. subst ns.
  unfold HandleBuild, nextBuildStatus, resolveOutput in Hrun.
  open_monad Hrun.
  destruct (decide (Status build <> BuildStatusNew)); [contradiction|].
  rewrite Hc, Hto in Hrun. simpl in Hrun. rewrite Hget in Hrun.
  destruct r as [repo|e]; simpl in Hrun.
  - apply len0_true in Hr. rewrite Hr in Hrun. subst run.
    unfold result, world, trace. simpl.
    repeat split; eauto. intros e He. discriminate.
  - destruct (IsNotFound e) eqn:Hnf; subst run;
      unfold result, world, trace; simpl;
      repeat split; eauto; intros e' He' Hnf'; congruence.
Qed.

(** X8: for a New build that is not being cancelled and whose output is a
    literal reference (no image stream), HandleBuild looks no image stream
    up, leaves the parameters of the build, the output reference with
    them, as they were, sets the status to Pending, and the strategy sees
    the build so. *)
Theorem HandleBuild_literal_output (build : Build) (w : W) :
  Status build = BuildStatusNew ->
  Cancelled build = false ->
  To (Output (Parameters build)) = None ->
  let run := HandleBuild copy_error build w in
  Status (snd (result run)) = BuildStatusPending
  /\ Parameters (snd (result run)) = Parameters build
  /\ (forall ns name, ~ In (CallGetImageStream ns name) (trace run))
  /\ (forall given, In (CallCreateBuildPod given) (trace run) ->
      given = snd (result run)).
Proof.
  intros Hnew Hc Hto run. subst run. revert Hnew Hc Hto.
  all_runs (HandleBuild copy_error build w); intros Hnew Hc Hto;
    try contradiction; try discriminate;
    (split; [reflexivity|]);
    (split; [destruct build as [? ? [[? ? ?]] ? ? ? ? ?]; simpl in *;
             congruence|]);
    (split; [intros ns name Hin|intros given Hin]);
    simpl in Hin; intuition congruence.
Qed.

(** X9: when the destination resolves and the strategy fails, HandleBuild
    returns an error that carries the strategy error's text, leaves the
    build Pending with the resolved reference, and attempts no pod
    creation, records no event and persists nothing. *)
Theorem HandleBuild_strategy_failure
        (build : Build) (w w1 w2 : W) (spec : string) (t1 : list Call)
        (serr : error) :
  Status build = BuildStatusNew ->
  Cancelled build = false ->
  resolveOutput build w = (inl spec, w1, t1) ->
  copy_error (pendingWith spec build) = None ->
  CreateBuildPod (pendingWith spec build) w1 = (inr serr, w2) ->
  HandleBuild copy_error build w
  = (Some (Errorf ("Build failed with error "
                     +:+ Namespace build +:+ "/" +:+ Name build +:+ ": "
                     +:+ "the strategy failed to create a build pod for "
                     +:+ Namespace build +:+ "/" +:+ Name build
                     +:+ ": " +:+ Error serr)),
     pendingWith spec build, w2,
     t1 ++ [CallCreateBuildPod (pendingWith spec build)]).
Proof.
  intros Hnew Hc Hres Hcopy Hs. unfold pendingWith in *.
  remember (HandleBuild copy_error build w) as run eqn:Hrun.
  open_admission Hrun.
  destruct (decide (Status build <> BuildStatusNew)); [contradiction|].
  rewrite Hc in Hrun. rewrite Hres in Hrun. simpl in Hrun.
  rewrite Hcopy in Hrun. rewrite Hs in Hrun. simpl in Hrun.
  rewrite app_nil_r in Hrun. exact Hrun.
Qed.

(** X10: an AlreadyExists answer of CreatePod is handled exactly like a
    successful creation: no error is returned, the build is left Pending
    with the resolved reference and is persisted so, and the calls are the
    same. *)
Theorem HandleBuild_created_or_existing
        (build : Build) (w w1 w2 w3 : W) (spec : string) (t1 : list Call)
        (podSpec : kapi.Pod) (created : kapi.Pod + error) :
  Status build = BuildStatusNew ->
  Cancelled build = false ->
  resolveOutput build w = (inl spec, w1, t1) ->
  copy_error (pendingWith spec build) = None ->
  CreateBuildPod (pendingWith spec build) w1 = (inl podSpec, w2) ->
  CreatePod (Namespace build) podSpec w2 = (created, w3) ->
  match created with
  | inl _ => True
  | inr perr => IsAlreadyExists perr = true
  end ->
  HandleBuild copy_error build w
  = (None, pendingWith spec build,
     snd (Update (Namespace build) (pendingWith spec build) w3),
     t1 ++ [CallCreateBuildPod (pendingWith spec build);
            CallCreatePod (Namespace build) podSpec;
            CallUpdate (Namespace build) (pendingWith spec build)]).
Proof.
  intros Hnew Hc Hres Hcopy Hs Hp Hcreated. unfold pendingWith in *.
  remember (HandleBuild copy_error build w) as run eqn:Hrun.
  open_admission Hrun.
  destruct (decide (Status build <> BuildStatusNew)); [contradiction|].
  rewrite Hc in Hrun. rewrite Hres in Hrun. simpl in Hrun.
  rewrite Hcopy in Hrun. rewrite Hs in Hrun. simpl in Hrun.
  rewrite Hp in Hrun.
  destruct created as [pod|perr]; simpl in Hrun;
    [|rewrite Hcreated in Hrun; simpl in Hrun];
    destruct (Update _ _ w3) as [u w4]; simpl in *;
    rewrite <- app_assoc in Hrun; exact Hrun.
Qed.

End AdmissionCoverage.

Section PodCoverage.

(** Name a run, open it with the store lookup already answered, and
    follow its branches. *)
Ltac found_runs r Hget :=
  let Hr := fresh "Hr" in
  remember r as run eqn:Hr;
  open_run Hr; rewrite Hget in Hr; split_run Hr; subst run;
  unfold result, world, trace; simpl.

(** X11: when the build store fails, or has no build for the pod, HandlePod
    and HandleBuildPodDeletion make no other call and change nothing; a
    store error is returned as it is, and a missing build is no error. *)
Theorem pod_handlers_without_build
        (pod : kapi.Pod) (w w1 : W)
        (obj : option Build) (found : bool) (err : option error) :
  StoreGet pod w = (obj, found, err, w1) ->
  err <> None \/ obj = None \/ found = false ->
  HandlePod pod w = (err, None, w1, [CallStoreGet pod])
  /\ HandleBuildPodDeletion pod w = (err, None, w1, [CallStoreGet pod]).
Proof.
  intros Hget Hno. unfold HandlePod, HandleBuildPodDeletion.
  unfold doStoreGet, bind, call, ret. rewrite Hget. simpl.
  destruct err as [e|]; [split; reflexivity|].
  destruct obj as [build|]; [|split; reflexivity].
  destruct found; [|split; reflexivity].
  exfalso. destruct Hno as [H|[H|H]]; congruence.
Qed.

(** X12: a pod in phase Pending or Unknown never changes the build: for a
    build that is not being cancelled HandlePod makes no call but the store
    lookup and returns no error. *)
Theorem HandlePod_other_phase_noop
        (pod : kapi.Pod) (build : Build) (w w1 : W) :
  StoreGet pod w = (Some build, true, None, w1) ->
  Cancelled build = false ->
  kapi.Phase (kapi.Status pod) = kapi.PodPending
  \/ kapi.Phase (kapi.Status pod) = kapi.PodUnknown ->
  HandlePod pod w = (None, Some build, w1, [CallStoreGet pod]).
Proof.
  intros Hget Hc Hphase. unfold HandlePod.
  unfold doStoreGet, bind, call, ret. rewrite Hget. simpl. rewrite Hc.
  unfold podNextStatus.
  destruct Hphase as [-> | ->];
    (destruct (decide (Status build <> Status build)) as [Hne|_];
     [contradiction|reflexivity]).
Qed.

(** The status computed from a pod does not depend on the build once the
    build has that status. *)
Lemma podNextStatus_again (build build' : Build) (pod : kapi.Pod) :
  Status build' = podNextStatus build pod ->
  podNextStatus build' pod = Status build'.
Proof.
  unfold podNextStatus. destruct (kapi.Phase (kapi.Status pod)); congruence.
Qed.

(** X13: HandlePod is safe to redeliver: when it has returned no error and
    the store then serves the build as HandlePod left it, HandlePod for the
    same pod makes no call but the store lookup, and no update. *)
Theorem HandlePod_redelivery_noop
        (pod : kapi.Pod) (build build' : Build) (w w1 w' w1' : W) :
  StoreGet pod w = (Some build, true, None, w1) ->
  fst (result (HandlePod pod w)) = None ->
  snd (result (HandlePod pod w)) = Some build' ->
  StoreGet pod w' = (Some build', true, None, w1') ->
  HandlePod pod w' = (None, Some build', w1', [CallStoreGet pod]).
Proof.
  intros Hget Hnil Hleft Hget'.
  assert (Hfacts :
    Cancelled build' = Cancelled build
    /\ (Cancelled build = true -> isBuildCancellable build' = false)
    /\ (Cancelled build = false -> Status build' = podNextStatus build pod)).
  { revert Hnil Hleft.
    found_runs (HandlePod pod w) Hget; intros Hnil Hleft;
      try discriminate; injection Hleft as <-; simpl;
      repeat split; try congruence; try reflexivity;
      try (intros _; match goal with
                     | H : negb (isBuildCancellable _) = true |- _ =>
                         apply negb_true_iff in H; exact H
                     end);
      try (intros _;
           match goal with
           | n : ~ Status ?b <> ?s |- _ =>
               destruct (decide (Status b = s)); [assumption|contradiction]
           end). }
  destruct Hfacts as [Hc [Hcancel Hstatus]].
  unfold HandlePod. unfold doStoreGet. unfold bind at 1. unfold call at 1.
  rewrite Hget'. simpl. rewrite Hc.
  destruct (Cancelled build) eqn:Hcb.
  - unfold CancelBuild. rewrite (Hcancel eq_refl). reflexivity.
  - rewrite (podNextStatus_again build build' pod (Hstatus eq_refl)).
    destruct (decide (Status build' <> Status build')) as [Hne|_];
      [contradiction|reflexivity].
Qed.

(** X14: when the status computed from the pod differs from the build's,
    and the build is not being cancelled, HandlePod sets that status,
    stamps the completion time exactly when the new status is terminal and
    the start time exactly when it is Running, leaves the other timestamp
    as it was, persists the build with one Update call, and returns an
    error exactly when the Update fails. *)
Theorem HandlePod_status_change
        (pod : kapi.Pod) (build : Build) (w w1 : W) :
  StoreGet pod w = (Some build, true, None, w1) ->
  Cancelled build = false ->
  podNextStatus build pod <> Status build ->
  exists build',
    snd (result (HandlePod pod w)) = Some build'
    /\ Status build' = podNextStatus build pod
    /\ (terminal (Status build') ->
        CompletionTimestamp build' = Some (Now w1))
    /\ (~ terminal (Status build') ->
        CompletionTimestamp build' = CompletionTimestamp build)
    /\ (Status build' = BuildStatusRunning ->
        StartTimestamp build' = Some (Now w1))
    /\ (Status build' <> BuildStatusRunning ->
        StartTimestamp build' = StartTimestamp build)
    /\ trace (HandlePod pod w)
       = [CallStoreGet pod; CallUpdate (Namespace build) build']
    /\ world (HandlePod pod w) = snd (Update (Namespace build) build' w1)
    /\ (fst (result (HandlePod pod w)) = None
        <-> fst (Update (Namespace build) build' w1) = None).
Proof.
  intros Hget Hc Hne.
  remember (HandlePod pod w) as run eqn:Hr.
  unfold HandlePod in Hr. open_monad Hr. rewrite Hget in Hr. simpl in Hr.
  rewrite Hc in Hr.
  destruct (decide (Status build <> podNextStatus build pod)) as [_|Heq];
    [|exfalso; apply Hne;
      destruct (decide (Status build = podNextStatus build pod));
      [congruence|contradiction]].
  unfold buildutil.IsBuildComplete in Hr. simpl in Hr.
  destruct (podNextStatus build pod) eqn:Hnext; simpl in Hr;
    match type of Hr with
    | context [Update ?ns ?b w1] =>
        exists b; destruct (Update ns b w1) as [[e|] w2] eqn:Hu
    end; simpl in Hr; subst run; unfold result, world, trace; simpl;
    unfold terminal; simpl;
    repeat split; try reflexivity; try discriminate; try congruence;
    try tauto;
    try (intros [H|[H|[H|H]]]; discriminate);
    try (intros H; exfalso; apply H; tauto).
Qed.

(** X15: HandlePod deletes a pod only to cancel: a DeletePod call is made
    only when the store served a build with the cancellation flag set and
    a status of New, Pending or Running, and then for the pod of the event,
    in the build's namespace. *)
Theorem HandlePod_deletes_only_when_cancelling
        (pod deleted : kapi.Pod) (ns : string) (w : W) :
  In (CallDeletePod ns deleted) (trace (HandlePod pod w)) ->
  exists build,
    fst (StoreGet pod w) = (Some build, true, None)
    /\ Cancelled build = true
    /\ isBuildCancellable build = true
    /\ deleted = pod
    /\ ns = Namespace build.
Proof.
  all_runs (HandlePod pod w); intros Hin;
    repeat match goal with
           | H : _ \/ _ |- _ => destruct H as [H|H]
           end; try discriminate; try contradiction.
  all: injection Hin as <- <-.
  all: repeat match goal with
              | H : negb _ = false |- _ => apply negb_false_iff in H
              end.
  all: subst.
  all: match goal with
       | H : isBuildCancellable ?b = true |- _ => exists b
       end.
  all: repeat split; try assumption; reflexivity.
Qed.

(** X16: a cancellation request wins over the pod's progress. For a build
    with the cancellation flag set and a status of New, Pending or Running,
    whatever the pod's phase and exit codes, HandlePod deletes the pod
    (a NotFound answer counts as deleted), sets the status to Cancelled,
    stamps the completion time and persists the build; it returns an error,
    which says that the cancellation will be retried, exactly when the
    Update fails. *)
Theorem HandlePod_cancel_wins
        (pod : kapi.Pod) (build : Build) (w w1 w2 : W)
        (deleteErr : option error) :
  StoreGet pod w = (Some build, true, None, w1) ->
  Cancelled build = true ->
  isBuildCancellable build = true ->
  DeletePod (Namespace build) pod w1 = (deleteErr, w2) ->
  match deleteErr with
  | None => True
  | Some e => IsNotFound e = true
  end ->
  exists build',
    snd (result (HandlePod pod w)) = Some build'
    /\ Status build' = BuildStatusCancelled
    /\ CompletionTimestamp build' = Some (Now w2)
    /\ trace (HandlePod pod w)
       = [CallStoreGet pod; CallDeletePod (Namespace build) pod;
          CallUpdate (Namespace build) build']
    /\ match fst (Update (Namespace build) build' w2) with
       | None => fst (result (HandlePod pod w)) = None
       | Some e =>
           fst (result (HandlePod pod w))
           = Some (Errorf ("Failed to cancel build " +:+ Name build
                             +:+ ": " +:+ Error e +:+ ", will retry"))
       end.
Proof.
  intros Hget Hc Hcan Hdel Hok.
  exists (set_CompletionTimestamp (Some (Now w2))
            (set_Status BuildStatusCancelled build)).
  remember (HandlePod pod w) as run eqn:Hr.
  open_run Hr. rewrite Hget in Hr. simpl in Hr.
  rewrite Hc, Hcan in Hr. simpl in Hr. rewrite Hdel in Hr.
  destruct deleteErr as [e|]; simpl in Hr;
    [rewrite Hok in Hr; simpl in Hr|];
    destruct (Update _ _ w2) as [[u|] w3]; simpl in *;
    subst run; repeat split.
Qed.

(** X17: for a build in a terminal status the cancellation flag has no
    effect: HandlePod makes no call but the store lookup and leaves the
    build as it is. *)
Theorem HandlePod_cancel_terminal_noop
        (pod : kapi.Pod) (build : Build) (w w1 : W) :
  StoreGet pod w = (Some build, true, None, w1) ->
  Cancelled build = true ->
  terminal (Status build) ->
  HandlePod pod w = (None, Some build, w1, [CallStoreGet pod]).
Proof.
  intros Hget Hc Ht. unfold HandlePod.
  unfold doStoreGet. unfold bind at 1. unfold call at 1.
  rewrite Hget. simpl. rewrite Hc.
  unfold bind. rewrite (CancelBuild_terminal build pod w1 Ht). reflexivity.
Qed.

(** X18: when the pod deletion of a cancellation fails with an error other
    than NotFound, the build is left as it is (not Cancelled, no completion
    time), nothing is persisted, and HandlePod returns an error that
    carries the deletion error's text and says that it will be retried. *)
Theorem HandlePod_cancel_delete_failure
        (pod : kapi.Pod) (build : Build) (w w1 w2 : W) (e : error) :
  StoreGet pod w = (Some build, true, None, w1) ->
  Cancelled build = true ->
  isBuildCancellable build = true ->
  DeletePod (Namespace build) pod w1 = (Some e, w2) ->
  IsNotFound e = false ->
  HandlePod pod w
  = (Some (Errorf ("Failed to cancel build " +:+ Name build
                     +:+ ": " +:+ Error e +:+ ", will retry")),
     Some build, w2,
     [CallStoreGet pod; CallDeletePod (Namespace build) pod]).
Proof.
  intros Hget Hc Hcan Hdel Hnf.
  remember (HandlePod pod w) as run eqn:Hr.
  open_run Hr. rewrite Hget in Hr. simpl in Hr.
  rewrite Hc, Hcan in Hr. simpl in Hr. rewrite Hdel in Hr. simpl in Hr.
  rewrite Hnf in Hr. simpl in Hr. exact Hr.
Qed.

(** X19: HandlePod changes nothing of the build the store served but its
    status and its two timestamps, and it never moves a build to New,
    Pending or Error. *)
Theorem HandlePod_keeps_identity
        (pod : kapi.Pod) (build build' : Build) (w w1 : W) :
  StoreGet pod w = (Some build, true, None, w1) ->
  snd (result (HandlePod pod w)) = Some build' ->
  Name build' = Name build
  /\ Namespace build' = Namespace build
  /\ Parameters build' = Parameters build
  /\ Cancelled build' = Cancelled build
  /\ Message build' = Message build
  /\ (Status build' = Status build
      \/ Status build' = BuildStatusRunning
      \/ Status build' = BuildStatusComplete
      \/ Status build' = BuildStatusFailed
      \/ Status build' = BuildStatusCancelled).
Proof.
  intros Hget. unfold podNextStatus.
  assert (Hcodes : forall infos,
            checkExitCodes infos BuildStatusComplete = BuildStatusComplete
            \/ checkExitCodes infos BuildStatusComplete = BuildStatusFailed).
  { induction infos as [|info rest IH]; simpl; [tauto|].
    destruct (kapi.Termination (kapi.State info)) as [t|]; [|exact IH].
    destruct (negb (kapi.ExitCode t =? 0)%Z); tauto. }
  remember (HandlePod pod w) as run eqn:Hr.
  open_run Hr. rewrite Hget in Hr. simpl in Hr.
  unfold podNextStatus in Hr.
  destruct (Hcodes (kapi.ContainerStatuses (kapi.Status pod))) as [Hk|Hk];
    rewrite Hk in Hr; clear Hcodes;
    split_run Hr; subst run; unfold result; simpl;
    intros Hleft; injection Hleft as <-; simpl;
    repeat split; tauto.
Qed.

(** X20: CancelBuild that has returned no error has nothing left to do:
    run again on the build it left, with any pod and in any world, it makes
    no call and changes nothing. *)
Theorem CancelBuild_idempotent
        (build : Build) (pod pod' : kapi.Pod) (w w' : W) :
  fst (result (CancelBuild build pod w)) = None ->
  CancelBuild (snd (result (CancelBuild build pod w))) pod' w'
  = (None, snd (result (CancelBuild build pod w)), w', []).
Proof.
  all_runs (CancelBuild build pod w); intros Hnil; try discriminate;
    unfold CancelBuild; simpl;
    try reflexivity;
    match goal with
    | H : negb (isBuildCancellable build) = true |- _ =>
        rewrite H; reflexivity
    end.
Qed.

(** X21: HandleBuildPodDeletion is safe to redeliver: when the store then
    serves the build as the handler left it, a second run makes no call
    but the store lookup, whether or not the first Update succeeded. *)
Theorem HandleBuildPodDeletion_redelivery_noop
        (pod : kapi.Pod) (build build' : Build) (w w1 w' w1' : W) :
  StoreGet pod w = (Some build, true, None, w1) ->
  snd (result (HandleBuildPodDeletion pod w)) = Some build' ->
  StoreGet pod w' = (Some build', true, None, w1') ->
  HandleBuildPodDeletion pod w' = (None, Some build', w1', [CallStoreGet pod]).
Proof.
  intros Hget Hleft Hget'.
  assert (buildutil.IsBuildComplete build' = true) as Hdone.
  { revert Hleft.
    found_runs (HandleBuildPodDeletion pod w) Hget; intros Hleft;
      injection Hleft as <-; try reflexivity; try assumption.
    match goal with
    | n : ~ Status build <> BuildStatusError |- _ =>
        unfold buildutil.IsBuildComplete;
        destruct (decide (Status build = BuildStatusError)) as [->|];
        [reflexivity|contradiction]
    end. }
  unfold HandleBuildPodDeletion. unfold doStoreGet, bind, call, ret.
  rewrite Hget'. simpl. rewrite Hdone. reflexivity.
Qed.

(** X22: HandleBuildPodDeletion changes nothing of the build the store
    served but its status, message and completion time; the start time and
    the cancellation flag are kept, and the status it leaves is the one it
    found or Error. *)
Theorem HandleBuildPodDeletion_keeps_identity
        (pod : kapi.Pod) (build build' : Build) (w w1 : W) :
  StoreGet pod w = (Some build, true, None, w1) ->
  snd (result (HandleBuildPodDeletion pod w)) = Some build' ->
  Name build' = Name build
  /\ Namespace build' = Namespace build
  /\ Parameters build' = Parameters build
  /\ Cancelled build' = Cancelled build
  /\ StartTimestamp build' = StartTimestamp build
  /\ (Status build' = Status build \/ Status build' = BuildStatusError).
Proof.
  intros Hget.
  found_runs (HandleBuildPodDeletion pod w) Hget; intros Hleft;
    injection Hleft as <-; simpl; repeat split; tauto.
Qed.

(** X23: the pod deletion that a cancellation causes does not turn the
    build into Error: after CancelBuild has returned no error the build is
    in a terminal status, and HandleBuildPodDeletion, when the store serves
    that build, makes no call but the store lookup. *)
Theorem CancelBuild_then_pod_deletion
        (build : Build) (pod pod' : kapi.Pod) (w w' w1' : W) :
  fst (result (CancelBuild build pod w)) = None ->
  let build' := snd (result (CancelBuild build pod w)) in
  StoreGet pod' w' = (Some build', true, None, w1') ->
  terminal (Status build')
  /\ HandleBuildPodDeletion pod' w'
     = (None, Some build', w1', [CallStoreGet pod']).
Proof.
  intros Hnil build' Hget'.
  assert (terminal (Status build')) as Ht.
  { subst build'. clear Hget'. revert Hnil.
    all_runs (CancelBuild build pod w); intros Hnil; try discriminate;
      unfold terminal; simpl; try tauto.
    match goal with
    | H : negb (isBuildCancellable build) = true |- _ =>
        apply negb_true_iff in H; unfold isBuildCancellable in H;
        destruct (Status build); simpl in H; try discriminate; tauto
    end. }
  split; [exact Ht|].
  unfold HandleBuildPodDeletion. unfold doStoreGet, bind, call, ret.
  rewrite Hget'. simpl.
  apply terminal_IsBuildComplete in Ht. rewrite Ht. reflexivity.
Qed.

(** X24: for a pod in phase Succeeded or Failed the computed status is
    Failed exactly when some container terminated with a nonzero exit code,
    and Complete otherwise; the phase itself plays no part, so that a pod
    in phase Failed that reports no container status gives Complete. *)
Theorem podNextStatus_finished (build : Build) (pod : kapi.Pod) :
  kapi.Phase (kapi.Status pod) = kapi.PodSucceeded
  \/ kapi.Phase (kapi.Status pod) = kapi.PodFailed ->
  (podNextStatus build pod = BuildStatusFailed <-> someExitNonzero pod)
  /\ (podNextStatus build pod = BuildStatusComplete <-> allExitZero pod)
  /\ (kapi.ContainerStatuses (kapi.Status pod) = [] ->
      podNextStatus build pod = BuildStatusComplete).
Proof.
  intros Hphase.
  assert (Hnext : podNextStatus build pod
                  = checkExitCodes (kapi.ContainerStatuses (kapi.Status pod))
                                   BuildStatusComplete).
  { unfold podNextStatus. destruct Hphase as [-> | ->]; reflexivity. }
  rewrite Hnext. unfold someExitNonzero, allExitZero.
  assert (Hcases : forall infos,
    (checkExitCodes infos BuildStatusComplete = BuildStatusComplete
     /\ Forall (fun info =>
                  match kapi.Termination (kapi.State info) with
                  | Some t => kapi.ExitCode t = 0%Z
                  | None => True
                  end) infos)
    \/ (checkExitCodes infos BuildStatusComplete = BuildStatusFailed
        /\ Exists (fun info =>
                     exists t, kapi.Termination (kapi.State info) = Some t
                               /\ kapi.ExitCode t <> 0%Z) infos)).
  { induction infos as [|info rest IH]; simpl.
    - left. split; [reflexivity|constructor].
    - destruct (kapi.Termination (kapi.State info)) as [t|] eqn:Ht.
      + destruct (kapi.ExitCode t =? 0)%Z eqn:Hz; simpl.
        * apply Z.eqb_eq in Hz.
          destruct IH as [[Hc Hall]|[Hf Hex]].
          -- left. split; [exact Hc|]. constructor; [|exact Hall].
             rewrite Ht. exact Hz.
          -- right. split; [exact Hf|]. apply Exists_cons_tl. exact Hex.
        * apply Z.eqb_neq in Hz. right. split; [reflexivity|].
          apply Exists_cons_hd. exists t. split; [exact Ht|exact Hz].
      + destruct IH as [[Hc Hall]|[Hf Hex]].
        * left. split; [exact Hc|]. constructor; [|exact Hall].
          rewrite Ht. exact I.
        * right. split; [exact Hf|]. apply Exists_cons_tl. exact Hex. }
  split; [|split].
  - split; [|apply checkExitCodes_someNonzero].
    intros Hf. destruct (Hcases (kapi.ContainerStatuses (kapi.Status pod)))
      as [[Hc _]|[_ Hex]]; [congruence|exact Hex].
  - split; [|apply checkExitCodes_allZero].
    intros Hc. destruct (Hcases (kapi.ContainerStatuses (kapi.Status pod)))
      as [[_ Hall]|[Hf _]]; [exact Hall|congruence].
  - intros ->. reflexivity.
Qed.

(** X25: the timestamps over a build's life. When a Pending build that is
    not being cancelled gets a Running pod event and then, served by the
    store as HandlePod left it, an event of the pod in phase Succeeded or
    Failed, the build ends Complete or Failed with its start time the time
    of the first event and its completion time the time of the second. *)
Theorem HandlePod_lifecycle_timestamps
        (pod pod' : kapi.Pod) (build build1 build2 : Build)
        (w w1 w' w1' : W) :
  Status build = BuildStatusPending ->
  Cancelled build = false ->
  kapi.Phase (kapi.Status pod) = kapi.PodRunning ->
  kapi.Phase (kapi.Status pod') = kapi.PodSucceeded
  \/ kapi.Phase (kapi.Status pod') = kapi.PodFailed ->
  StoreGet pod w = (Some build, true, None, w1) ->
  snd (result (HandlePod pod w)) = Some build1 ->
  StoreGet pod' w' = (Some build1, true, None, w1') ->
  snd (result (HandlePod pod' w')) = Some build2 ->
  Status build1 = BuildStatusRunning
  /\ StartTimestamp build1 = Some (Now w1)
  /\ CompletionTimestamp build1 = CompletionTimestamp build
  /\ (Status build2 = BuildStatusComplete
      \/ Status build2 = BuildStatusFailed)
  /\ StartTimestamp build2 = Some (Now w1)
  /\ CompletionTimestamp build2 = Some (Now w1').
Proof.
  intros Hst Hc Hrun Hdone Hget Hleft1 Hget' Hleft2.
  assert (H1 : build1 = set_StartTimestamp (Some (Now w1))
                          (set_Status BuildStatusRunning build)).
  { revert Hleft1. remember (HandlePod pod w) as run eqn:Hr.
    unfold HandlePod in Hr. open_monad Hr. rewrite Hget in Hr. simpl in Hr.
    rewrite Hc in Hr. unfold podNextStatus in Hr. rewrite Hrun, Hst in Hr.
    split_run Hr; subst run; unfold result; simpl; intros Hleft1;
      try (exfalso; match goal with n : ~ _ |- _ => apply n end;
           discriminate);
      congruence. }
  subst build1. simpl in *.
  split; [reflexivity|]. split; [reflexivity|]. split; [reflexivity|].
  assert (Hnext : podNextStatus
                    (set_StartTimestamp (Some (Now w1))
                       (set_Status BuildStatusRunning build)) pod'
                  = BuildStatusComplete
                  \/ podNextStatus
                       (set_StartTimestamp (Some (Now w1))
                          (set_Status BuildStatusRunning build)) pod'
                     = BuildStatusFailed).
  { unfold podNextStatus.
    assert (forall infos,
              checkExitCodes infos BuildStatusComplete = BuildStatusComplete
              \/ checkExitCodes infos BuildStatusComplete = BuildStatusFailed)
      as Hcodes.
    { induction infos as [|info rest IH]; simpl; [tauto|].
      destruct (kapi.Termination (kapi.State info)) as [t|]; [|exact IH].
      destruct (negb (kapi.ExitCode t =? 0)%Z); tauto. }
    destruct Hdone as [-> | ->]; apply Hcodes. }
  revert Hleft2. remember (HandlePod pod' w') as run eqn:Hr.
  unfold HandlePod in Hr. open_monad Hr. rewrite Hget' in Hr. simpl in Hr.
  rewrite Hc in Hr.
  destruct Hnext as [Hn|Hn]; rewrite Hn in Hr; simpl in Hr;
    split_run Hr; subst run; unfold result; simpl; intros Hleft2;
    try (exfalso; match goal with n : ~ _ |- _ => apply n end;
         discriminate);
    injection Hleft2 as <-; simpl; repeat split; tauto.
Qed.

End PodCoverage.

End Coverage.

(** * Build deletion on the in-memory cluster *)

Section DeletionRedelivery.

Import InMemory.

Variable BuildLabel : string.

Lemma find_after_removal (p : kapi.Pod -> bool) (l : list kapi.Pod) :
  List.find p (List.filter (fun x => negb (p x)) l) = None.
Proof.
  induction l as [|x l IH]; simpl; [reflexivity|].
  destruct (p x) eqn:Hp; simpl; [exact IH|].
  rewrite Hp. exact IH.
Qed.

Lemma filter_after_removal (p : kapi.Pod -> bool) (l : list kapi.Pod) :
  List.filter p (List.filter (fun x => negb (p x)) l) = [].
Proof.
  induction l as [|x l IH]; simpl; [reflexivity|].
  destruct (p x) eqn:Hp; simpl; [exact IH|].
  rewrite Hp. exact IH.
Qed.

Lemma podIs_name (namespace name : string) (pod : kapi.Pod) :
  podIs namespace name pod = true -> kapi.Name pod = name.
Proof.
  unfold podIs. intros H. apply andb_true_iff in H as [_ H].
  apply String.eqb_eq in H. exact H.
Qed.

(** X26: on the in-memory cluster HandleBuildDeletion is safe to
    redeliver: after a first run for a build, whatever it did, a second run
    for that build returns no error and makes no call but the pod lookup;
    and when the first run deleted a pod, no pod is left under the build's
    namespace and pod name. *)
Theorem HandleBuildDeletion_redelivery_noop (build : Build) (c : Cluster) :
  let first := HandleBuildDeletion BuildLabel build c in
  let lookup :=
    CallGetPod (Namespace build) (buildutil.GetBuildPodName build) in
  result first = None /\
  HandleBuildDeletion BuildLabel build (world first)
  = (None, world first, [lookup])
  /\ ((exists ns pod, In (CallDeletePod ns pod) (trace first)) ->
      podsNamed (Namespace build) (buildutil.GetBuildPodName build)
                (world first) = []).
Proof.
  intros first lookup.
  assert (Hfirst : first = HandleBuildDeletion BuildLabel build c)
    by reflexivity.
  clearbody first. subst lookup.
  unfold HandleBuildDeletion in Hfirst.
  unfold doGetPod, doDeletePod, bind, call, ret in Hfirst.
  unfold buildutil.GetBuildPodName in *.
  simpl in Hfirst. unfold getPod in Hfirst. simpl in Hfirst.
  destruct (List.find (podIs (Namespace build) (Name build)) (pods c))
    as [pod|] eqn:Hfind; simpl in Hfirst.
  - destruct (decide (kapi.Label BuildLabel pod <> Name build)) as [Hne|Heq];
      simpl in Hfirst.
    + subst first. unfold world. simpl.
      split; [reflexivity|]. split.
      * unfold HandleBuildDeletion, buildutil.GetBuildPodName.
        unfold doGetPod, doDeletePod, bind, call, ret. simpl.
        unfold getPod. rewrite Hfind. simpl.
        destruct (decide (kapi.Label BuildLabel pod <> Name build));
          [reflexivity|contradiction].
      * simpl. intros [ns [p [H|[]]]]. discriminate.
    + apply List.find_some in Hfind as [Hin Hpod].
      pose proof (podIs_name _ _ _ Hpod) as Hname.
      unfold deletePod in Hfirst. rewrite Hname in Hfirst.
      assert (existsb (podIs (Namespace build) (Name build)) (pods c) = true)
        as Hex.
      { apply existsb_exists. exists pod. split; assumption. }
      rewrite Hex in Hfirst. simpl in Hfirst.
      subst first. unfold world. simpl.
      split; [reflexivity|]. split.
      * unfold HandleBuildDeletion, buildutil.GetBuildPodName.
        unfold doGetPod, doDeletePod, bind, call, ret. simpl.
        unfold getPod. simpl. rewrite find_after_removal. reflexivity.
      * intros _. unfold podsNamed. simpl. apply filter_after_removal.
  - subst first. unfold world. simpl.
    split; [reflexivity|]. split.
    + unfold HandleBuildDeletion, buildutil.GetBuildPodName.
      unfold doGetPod, doDeletePod, bind, call, ret. simpl.
      unfold getPod. rewrite Hfind. reflexivity.
    + simpl. intros [ns [p [H|[]]]]. discriminate.
Qed.

End DeletionRedelivery.

(** * The further properties on the example clusters *)

Section CoverageWitnesses.

Import InMemory Examples Faulty MoreExamples.

(** HandleBuild on [b1], then again on the build it left. *)
Lemma HandleBuild_consumed_once_witness :
  fst (result (HandleBuild neverFails b1 (clusterOf b1))) = None
  /\ HandleBuild neverFails
       (snd (result (HandleBuild neverFails b1 (clusterOf b1)))) emptyCluster
     = (None, snd (result (HandleBuild neverFails b1 (clusterOf b1))),
        emptyCluster, []).
Proof.
  assert (fst (result (HandleBuild neverFails b1 (clusterOf b1))) = None)
    as Hnil by (vm_compute; reflexivity).
  split; [exact Hnil|].
  exact (HandleBuild_consumed_once neverFails b1 (clusterOf b1)
           emptyCluster Hnil).
Defined.

(** HandleBuild on [b1] with a strategy that fails. *)
Lemma HandleBuild_late_failure_sticks_witness :
  let run := HandleBuild (BS := pureStrategy noStrategy) neverFails b1
                         (clusterOf b1) in
  fst (result run)
  = Some (Errorf "Build failed with error ns/b1: the strategy failed to create a build pod for ns/b1: no strategy for this build")
  /\ In (CallCreateBuildPod (pendingWith "registry:5000/ns/is1:v1" b1))
        (trace run)
  /\ Status (snd (result run)) = BuildStatusPending
  /\ noUpdate (trace run).
Proof.
  intros run.
  assert (fst (result run)
          = Some (Errorf "Build failed with error ns/b1: the strategy failed to create a build pod for ns/b1: no strategy for this build"))
    as Herr by (vm_compute; reflexivity).
  assert (In (CallCreateBuildPod (pendingWith "registry:5000/ns/is1:v1" b1))
             (trace run)) as Hin by (vm_compute; tauto).
  destruct (HandleBuild_late_failure_sticks (BS := pureStrategy noStrategy)
              neverFails b1 _ (clusterOf b1) emptyCluster _ Herr Hin)
    as [_ [Hst [_ [Hnu _]]]].
  split; [exact Herr|]. split; [exact Hin|]. split; [exact Hst|exact Hnu].
Defined.



(** HandleBuild on [b2], whose image stream does not exist. *)
Lemma HandleBuild_resolution_failure_witness :
  Status b2 = BuildStatusNew
  /\ Cancelled b2 = false
  /\ To (Output (Parameters b2)) = Some (mkObjectReference "" "nope")
  /\ GetImageStream "ns" "nope" (clusterOf b2)
     = (inr (StatusError StatusReasonNotFound "imageStream nope not found"),
        clusterOf b2)
  /\ snd (result (HandleBuild neverFails b2 (clusterOf b2))) = b2
  /\ trace (HandleBuild neverFails b2 (clusterOf b2))
     = [CallGetImageStream "ns" "nope"].
Proof.
  assert (GetImageStream "ns" "nope" (clusterOf b2)
          = (inr (StatusError StatusReasonNotFound "imageStream nope not found"),
             clusterOf b2)) as Hget by (vm_compute; reflexivity).
  destruct (HandleBuild_resolution_failure neverFails b2 (clusterOf b2)
              (clusterOf b2) (mkObjectReference "" "nope") _
              eq_refl eq_refl eq_refl Hget I)
    as [Hb [_ [Htr _]]].
  split; [reflexivity|]. split; [reflexivity|]. split; [reflexivity|].
  split; [exact Hget|]. split; [exact Hb|exact Htr].
Defined.

(** HandleBuild on [b3], whose output is a literal reference. *)
Lemma HandleBuild_literal_output_witness :
  Status b3 = BuildStatusNew
  /\ Cancelled b3 = false
  /\ To (Output (Parameters b3)) = None
  /\ Status (snd (result (HandleBuild neverFails b3 (clusterOf b3))))
     = BuildStatusPending
  /\ Parameters (snd (result (HandleBuild neverFails b3 (clusterOf b3))))
     = Parameters b3.
Proof.
  destruct (HandleBuild_literal_output neverFails b3 (clusterOf b3)
              eq_refl eq_refl eq_refl) as [Hst [Hp _]].
  split; [reflexivity|]. split; [reflexivity|]. split; [reflexivity|].
  split; [exact Hst|exact Hp].
Defined.

(** HandleBuild on [b1] with a strategy that fails. *)
Lemma HandleBuild_strategy_failure_witness :
  Status b1 = BuildStatusNew
  /\ Cancelled b1 = false
  /\ resolveOutput b1 (clusterOf b1)
     = (inl "registry:5000/ns/is1:v1", clusterOf b1,
        [CallGetImageStream "ns" "is1"])
  /\ neverFails (pendingWith "registry:5000/ns/is1:v1" b1) = None
  /\ CreateBuildPod (BuildStrategy := pureStrategy noStrategy)
       (pendingWith "registry:5000/ns/is1:v1" b1) (clusterOf b1)
     = (inr (Errorf "no strategy for this build"), clusterOf b1)
  /\ trace (HandleBuild (BS := pureStrategy noStrategy) neverFails b1
                        (clusterOf b1))
     = [CallGetImageStream "ns" "is1";
        CallCreateBuildPod (pendingWith "registry:5000/ns/is1:v1" b1)].
Proof.
  assert (resolveOutput b1 (clusterOf b1)
          = (inl "registry:5000/ns/is1:v1", clusterOf b1,
             [CallGetImageStream "ns" "is1"])) as Hres
    by (vm_compute; reflexivity).
  pose proof (HandleBuild_strategy_failure (BS := pureStrategy noStrategy)
                neverFails b1 (clusterOf b1) (clusterOf b1) (clusterOf b1)
                "registry:5000/ns/is1:v1" _ (Errorf "no strategy for this build")
                eq_refl eq_refl Hres eq_refl eq_refl) as Hrun.
  split; [reflexivity|]. split; [reflexivity|]. split; [exact Hres|].
  split; [reflexivity|]. split; [reflexivity|].
  rewrite Hrun. reflexivity.
Defined.

(** HandleBuild on [b1] when its pod is already there. *)
Lemma HandleBuild_created_or_existing_witness :
  let podSpec :=
    kapi.mkPod "b1" "ns" {[ exampleLabel := "b1" ]}
               (kapi.mkPodStatus kapi.PodPending []) in
  resolveOutput b1 (clusterWithPodOf b1)
  = (inl "registry:5000/ns/is1:v1", clusterWithPodOf b1,
     [CallGetImageStream "ns" "is1"])
  /\ CreatePod "ns" podSpec (clusterWithPodOf b1)
     = (inr (StatusError StatusReasonAlreadyExists "pod b1 already exists"),
        clusterWithPodOf b1)
  /\ fst (result (HandleBuild neverFails b1 (clusterWithPodOf b1))) = None
  /\ pods (world (HandleBuild neverFails b1 (clusterWithPodOf b1)))
     = pods (clusterWithPodOf b1).
Proof.
  intros podSpec.
  assert (resolveOutput b1 (clusterWithPodOf b1)
          = (inl "registry:5000/ns/is1:v1", clusterWithPodOf b1,
             [CallGetImageStream "ns" "is1"])) as Hres
    by (vm_compute; reflexivity).
  assert (CreatePod "ns" podSpec (clusterWithPodOf b1)
          = (inr (StatusError StatusReasonAlreadyExists
                              "pod b1 already exists"),
             clusterWithPodOf b1)) as Hcreate
    by (vm_compute; reflexivity).
  pose proof (HandleBuild_created_or_existing neverFails b1
                (clusterWithPodOf b1) (clusterWithPodOf b1)
                (clusterWithPodOf b1) (clusterWithPodOf b1)
                "registry:5000/ns/is1:v1" _ podSpec _
                eq_refl eq_refl Hres eq_refl eq_refl Hcreate eq_refl)
    as Hrun.
  split; [exact Hres|]. split; [exact Hcreate|].
  rewrite Hrun. split; reflexivity.
Defined.

(** A pod event when the store fails, and when it holds no such build. *)
Lemma pod_handlers_without_build_witness :
  StoreGet (BuildStore := brokenStore) (podOf kapi.PodRunning [])
           emptyCluster
  = (None, false, Some (Errorf "store unavailable"), emptyCluster)
  /\ HandlePod (ST := brokenStore) (podOf kapi.PodRunning []) emptyCluster
     = (Some (Errorf "store unavailable"), None, emptyCluster,
        [CallStoreGet (podOf kapi.PodRunning [])])
  /\ StoreGet (podOf kapi.PodRunning []) emptyCluster
     = (None, false, None, emptyCluster)
  /\ HandleBuildPodDeletion (podOf kapi.PodRunning []) emptyCluster
     = (None, None, emptyCluster, [CallStoreGet (podOf kapi.PodRunning [])]).
Proof.
  assert (Some (Errorf "store unavailable") <> None) as Hsome
    by discriminate.
  split; [reflexivity|].
  split; [exact (proj1 (pod_handlers_without_build (ST := brokenStore)
                          (podOf kapi.PodRunning []) emptyCluster
                          emptyCluster None false _ eq_refl
                          (or_introl Hsome)))|].
  split; [reflexivity|].
  exact (proj2 (pod_handlers_without_build (podOf kapi.PodRunning [])
                  emptyCluster emptyCluster None false None eq_refl
                  (or_intror (or_introl eq_refl)))).
Defined.

(** A Pending pod event for the Running build [b1]. *)
Lemma HandlePod_other_phase_noop_witness :
  StoreGet (podOf kapi.PodPending []) (clusterOf b1Running)
  = (Some b1Running, true, None, clusterOf b1Running)
  /\ Cancelled b1Running = false
  /\ HandlePod (podOf kapi.PodPending []) (clusterOf b1Running)
     = (None, Some b1Running, clusterOf b1Running,
        [CallStoreGet (podOf kapi.PodPending [])]).
Proof.
  assert (StoreGet (podOf kapi.PodPending []) (clusterOf b1Running)
          = (Some b1Running, true, None, clusterOf b1Running)) as Hget
    by (vm_compute; reflexivity).
  split; [exact Hget|]. split; [reflexivity|].
  exact (HandlePod_other_phase_noop (podOf kapi.PodPending []) b1Running
           (clusterOf b1Running) (clusterOf b1Running) Hget eq_refl
           (or_introl eq_refl)).
Defined.

(** The same Running pod event twice for the Pending build [b1]. *)
Lemma HandlePod_redelivery_noop_witness :
  let pod := podOf kapi.PodRunning [] in
  let first := HandlePod pod (clusterOf b1Pending) in
  fst (result first) = None
  /\ snd (result first)
     = Some (set_StartTimestamp (Some 100%Z) b1Running)
  /\ HandlePod pod (world first)
     = (None, Some (set_StartTimestamp (Some 100%Z) b1Running), world first,
        [CallStoreGet pod]).
Proof.
  intros pod first.
  assert (StoreGet pod (clusterOf b1Pending)
          = (Some b1Pending, true, None, clusterOf b1Pending)) as Hget
    by (vm_compute; reflexivity).
  assert (fst (result first) = None) as Hnil by (vm_compute; reflexivity).
  assert (snd (result first)
          = Some (set_StartTimestamp (Some 100%Z) b1Running)) as Hleft
    by (vm_compute; reflexivity).
  assert (StoreGet pod (world first)
          = (Some (set_StartTimestamp (Some 100%Z) b1Running), true, None,
             world first)) as Hget' by (vm_compute; reflexivity).
  split; [exact Hnil|]. split; [exact Hleft|].
  exact (HandlePod_redelivery_noop pod b1Pending _ (clusterOf b1Pending)
           (clusterOf b1Pending) (world first) (world first)
           Hget Hnil Hleft Hget').
Defined.

(** A Succeeded pod event, exit code 0, for the Running build [b1]. *)
Lemma HandlePod_status_change_witness :
  let pod := podOf kapi.PodSucceeded [0%Z] in
  StoreGet pod (clusterOf b1Running)
  = (Some b1Running, true, None, clusterOf b1Running)
  /\ Cancelled b1Running = false
  /\ podNextStatus b1Running pod <> Status b1Running
  /\ exists build',
      snd (result (HandlePod pod (clusterOf b1Running))) = Some build'
      /\ Status build' = BuildStatusComplete
      /\ CompletionTimestamp build' = Some 100%Z
      /\ StartTimestamp build' = None.
Proof.
  intros pod.
  assert (StoreGet pod (clusterOf b1Running)
          = (Some b1Running, true, None, clusterOf b1Running)) as Hget
    by (vm_compute; reflexivity).
  assert (podNextStatus b1Running pod <> Status b1Running) as Hne
    by (vm_compute; discriminate).
  destruct (HandlePod_status_change pod b1Running (clusterOf b1Running)
              (clusterOf b1Running) Hget eq_refl Hne)
    as [build' [Hleft [Hst [Hdone [_ [_ [Hstart _]]]]]]].
  split; [exact Hget|]. split; [reflexivity|]. split; [exact Hne|].
  exists build'. split; [exact Hleft|]. split; [exact Hst|].
  split.
  - apply Hdone. rewrite Hst. left. reflexivity.
  - rewrite Hstart; [reflexivity|]. rewrite Hst. discriminate.
Defined.

(** A pod event for the Running build [b1] that is being cancelled. *)
Lemma HandlePod_deletes_only_when_cancelling_witness :
  let pod := podOf kapi.PodSucceeded [0%Z] in
  In (CallDeletePod "ns" pod)
     (trace (HandlePod pod (clusterWithPodOf b1RunningCancelling)))
  /\ exists build,
      fst (StoreGet pod (clusterWithPodOf b1RunningCancelling))
      = (Some build, true, None)
      /\ Cancelled build = true.
Proof.
  intros pod.
  assert (In (CallDeletePod "ns" pod)
             (trace (HandlePod pod (clusterWithPodOf b1RunningCancelling))))
    as Hin by (vm_compute; tauto).
  destruct (HandlePod_deletes_only_when_cancelling pod pod "ns"
              (clusterWithPodOf b1RunningCancelling) Hin)
    as [build [Hget [Hc _]]].
  split; [exact Hin|]. exists build. split; [exact Hget|exact Hc].
Defined.

(** A Succeeded pod event for the Running build [b1] that is being
    cancelled; the pod is no longer there. *)
Lemma HandlePod_cancel_wins_witness :
  let pod := podOf kapi.PodSucceeded [0%Z] in
  StoreGet pod (clusterOf b1RunningCancelling)
  = (Some b1RunningCancelling, true, None, clusterOf b1RunningCancelling)
  /\ Cancelled b1RunningCancelling = true
  /\ isBuildCancellable b1RunningCancelling = true
  /\ DeletePod "ns" pod (clusterOf b1RunningCancelling)
     = (Some (StatusError StatusReasonNotFound "pod b1 not found"),
        clusterOf b1RunningCancelling)
  /\ exists build',
      snd (result (HandlePod pod (clusterOf b1RunningCancelling)))
      = Some build'
      /\ Status build' = BuildStatusCancelled
      /\ CompletionTimestamp build' = Some 100%Z.
Proof.
  intros pod.
  assert (StoreGet pod (clusterOf b1RunningCancelling)
          = (Some b1RunningCancelling, true, None,
             clusterOf b1RunningCancelling)) as Hget
    by (vm_compute; reflexivity).
  assert (DeletePod "ns" pod (clusterOf b1RunningCancelling)
          = (Some (StatusError StatusReasonNotFound "pod b1 not found"),
             clusterOf b1RunningCancelling)) as Hdel
    by (vm_compute; reflexivity).
  destruct (HandlePod_cancel_wins pod b1RunningCancelling
              (clusterOf b1RunningCancelling)
              (clusterOf b1RunningCancelling)
              (clusterOf b1RunningCancelling) _
              Hget eq_refl eq_refl Hdel eq_refl)
    as [build' [Hleft [Hst [Hts _]]]].
  split; [exact Hget|]. split; [reflexivity|]. split; [reflexivity|].
  split; [exact Hdel|].
  exists build'. split; [exact Hleft|]. split; [exact Hst|exact Hts].
Defined.

(** A pod event for the Cancelled build [b1], whose flag is still set. *)
Lemma HandlePod_cancel_terminal_noop_witness :
  let pod := podOf kapi.PodRunning [] in
  StoreGet pod (clusterWithPodOf b1Cancelled)
  = (Some b1Cancelled, true, None, clusterWithPodOf b1Cancelled)
  /\ Cancelled b1Cancelled = true
  /\ terminal (Status b1Cancelled)
  /\ HandlePod pod (clusterWithPodOf b1Cancelled)
     = (None, Some b1Cancelled, clusterWithPodOf b1Cancelled,
        [CallStoreGet pod]).
Proof.
  intros pod.
  assert (StoreGet pod (clusterWithPodOf b1Cancelled)
          = (Some b1Cancelled, true, None, clusterWithPodOf b1Cancelled))
    as Hget by (vm_compute; reflexivity).
  assert (terminal (Status b1Cancelled)) as Ht
    by (right; right; right; reflexivity).
  split; [exact Hget|]. split; [reflexivity|]. split; [exact Ht|].
  exact (HandlePod_cancel_terminal_noop pod b1Cancelled
           (clusterWithPodOf b1Cancelled) (clusterWithPodOf b1Cancelled)
           Hget eq_refl Ht).
Defined.

(** A cancellation whose pod deletion is refused. *)
Lemma HandlePod_cancel_delete_failure_witness :
  let pod := podOf kapi.PodRunning [] in
  let c := clusterWithPodOf b1RunningCancelling in
  StoreGet pod c = (Some b1RunningCancelling, true, None, c)
  /\ DeletePod (podManager := refusingPods) "ns" pod c
     = (Some (StatusError StatusReasonUnknown "server unavailable"), c)
  /\ HandlePod (PM := refusingPods) pod c
     = (Some (Errorf "Failed to cancel build b1: server unavailable, will retry"),
        Some b1RunningCancelling, c,
        [CallStoreGet pod; CallDeletePod "ns" pod]).
Proof.
  intros pod c.
  assert (StoreGet pod c = (Some b1RunningCancelling, true, None, c))
    as Hget by (vm_compute; reflexivity).
  split; [exact Hget|]. split; [reflexivity|].
  exact (HandlePod_cancel_delete_failure (PM := refusingPods) pod
           b1RunningCancelling c c c _ Hget eq_refl eq_refl eq_refl eq_refl).
Defined.

(** A Failed pod event, exit code 2, for the Running build [b1]. *)
Lemma HandlePod_keeps_identity_witness :
  let pod := podOf kapi.PodFailed [2%Z] in
  StoreGet pod (clusterOf b1Running)
  = (Some b1Running, true, None, clusterOf b1Running)
  /\ exists build',
      snd (result (HandlePod pod (clusterOf b1Running))) = Some build'
      /\ Name build' = "b1"
      /\ Parameters build' = Parameters b1Running.
Proof.
  intros pod.
  assert (StoreGet pod (clusterOf b1Running)
          = (Some b1Running, true, None, clusterOf b1Running)) as Hget
    by (vm_compute; reflexivity).
  assert (snd (result (HandlePod pod (clusterOf b1Running)))
          = Some (set_CompletionTimestamp (Some 100%Z)
                    (set_Status BuildStatusFailed b1Running))) as Hleft
    by (vm_compute; reflexivity).
  destruct (HandlePod_keeps_identity pod b1Running _ (clusterOf b1Running)
              (clusterOf b1Running) Hget Hleft) as [Hn [_ [Hp _]]].
  split; [exact Hget|].
  eexists. split; [exact Hleft|]. split; [exact Hn|exact Hp].
Defined.

(** CancelBuild twice on the Running build [b1]. *)
Lemma CancelBuild_idempotent_witness :
  let pod := podOf kapi.PodRunning [] in
  let first := CancelBuild b1RunningCancelling pod
                           (clusterWithPodOf b1RunningCancelling) in
  fst (result first) = None
  /\ Status (snd (result first)) = BuildStatusCancelled
  /\ CancelBuild (snd (result first)) pod (world first)
     = (None, snd (result first), world first, []).
Proof.
  intros pod first.
  assert (fst (result first) = None) as Hnil by (vm_compute; reflexivity).
  split; [exact Hnil|]. split; [reflexivity|].
  exact (CancelBuild_idempotent b1RunningCancelling pod pod
           (clusterWithPodOf b1RunningCancelling) (world first) Hnil).
Defined.

(** The pod of the Running build [b1] is reported deleted twice. *)
Lemma HandleBuildPodDeletion_redelivery_noop_witness :
  let pod := podOf kapi.PodRunning [] in
  let first := HandleBuildPodDeletion pod (clusterOf b1Running) in
  snd (result first) = Some (lostPod 100%Z b1Running)
  /\ HandleBuildPodDeletion pod (world first)
     = (None, Some (lostPod 100%Z b1Running), world first,
        [CallStoreGet pod]).
Proof.
  intros pod first.
  assert (StoreGet pod (clusterOf b1Running)
          = (Some b1Running, true, None, clusterOf b1Running)) as Hget
    by (vm_compute; reflexivity).
  assert (snd (result first) = Some (lostPod 100%Z b1Running)) as Hleft
    by (vm_compute; reflexivity).
  assert (StoreGet pod (world first)
          = (Some (lostPod 100%Z b1Running), true, None, world first))
    as Hget' by (vm_compute; reflexivity).
  split; [exact Hleft|].
  exact (HandleBuildPodDeletion_redelivery_noop pod b1Running _
           (clusterOf b1Running) (clusterOf b1Running)
           (world first) (world first) Hget Hleft Hget').
Defined.

(** The pod of the Running build [b1], started at 70, is deleted. *)
Lemma HandleBuildPodDeletion_keeps_identity_witness :
  let pod := podOf kapi.PodRunning [] in
  let started := set_StartTimestamp (Some 70%Z) b1Running in
  StoreGet pod (clusterOf started) = (Some started, true, None, clusterOf started)
  /\ snd (result (HandleBuildPodDeletion pod (clusterOf started)))
     = Some (lostPod 100%Z started)
  /\ StartTimestamp (lostPod 100%Z started) = Some 70%Z
  /\ Cancelled (lostPod 100%Z started) = false.
Proof.
  intros pod started.
  assert (StoreGet pod (clusterOf started)
          = (Some started, true, None, clusterOf started)) as Hget
    by (vm_compute; reflexivity).
  assert (snd (result (HandleBuildPodDeletion pod (clusterOf started)))
          = Some (lostPod 100%Z started)) as Hleft
    by (vm_compute; reflexivity).
  destruct (HandleBuildPodDeletion_keeps_identity pod started _
              (clusterOf started) (clusterOf started) Hget Hleft)
    as [_ [_ [_ [Hc [Hs _]]]]].
  split; [exact Hget|]. split; [exact Hleft|]. split; [exact Hs|exact Hc].
Defined.

(** [b1] is cancelled and the deletion of its pod is then reported. *)
Lemma CancelBuild_then_pod_deletion_witness :
  let pod := podOf kapi.PodRunning [] in
  let first := CancelBuild b1RunningCancelling pod
                           (clusterWithPodOf b1RunningCancelling) in
  fst (result first) = None
  /\ StoreGet pod (world first)
     = (Some (snd (result first)), true, None, world first)
  /\ HandleBuildPodDeletion pod (world first)
     = (None, Some (snd (result first)), world first, [CallStoreGet pod]).
Proof.
  intros pod first.
  assert (fst (result first) = None) as Hnil by (vm_compute; reflexivity).
  assert (StoreGet pod (world first)
          = (Some (snd (result first)), true, None, world first)) as Hget
    by (vm_compute; reflexivity).
  split; [exact Hnil|]. split; [exact Hget|].
  exact (proj2 (CancelBuild_then_pod_deletion b1RunningCancelling pod pod
                  (clusterWithPodOf b1RunningCancelling) (world first)
                  (world first) Hnil Hget)).
Defined.

(** A pod in phase Failed that reports no container status. *)
Lemma podNextStatus_finished_witness :
  kapi.Phase (kapi.Status (podOf kapi.PodFailed [])) = kapi.PodFailed
  /\ kapi.ContainerStatuses (kapi.Status (podOf kapi.PodFailed [])) = []
  /\ podNextStatus b1Running (podOf kapi.PodFailed []) = BuildStatusComplete.
Proof.
  destruct (podNextStatus_finished b1Running (podOf kapi.PodFailed [])
              (or_intror eq_refl)) as [_ [_ Hempty]].
  split; [reflexivity|]. split; [reflexivity|]. exact (Hempty eq_refl).
Defined.

(** [b1] from Pending to Running at 100 and to Complete at 250. *)
Lemma HandlePod_lifecycle_timestamps_witness :
  let pod := podOf kapi.PodRunning [] in
  let pod' := podOf kapi.PodSucceeded [0%Z] in
  let build1 := set_StartTimestamp (Some 100%Z) b1Running in
  let later := mkCluster [] [is1] [build1] [] 250%Z in
  StoreGet pod (clusterOf b1Pending)
  = (Some b1Pending, true, None, clusterOf b1Pending)
  /\ snd (result (HandlePod pod (clusterOf b1Pending))) = Some build1
  /\ StoreGet pod' later = (Some build1, true, None, later)
  /\ exists build2,
      snd (result (HandlePod pod' later)) = Some build2
      /\ StartTimestamp build2 = Some 100%Z
      /\ CompletionTimestamp build2 = Some 250%Z.
Proof.
  intros pod pod' build1 later.
  assert (StoreGet pod (clusterOf b1Pending)
          = (Some b1Pending, true, None, clusterOf b1Pending)) as Hget
    by (vm_compute; reflexivity).
  assert (snd (result (HandlePod pod (clusterOf b1Pending))) = Some build1)
    as Hleft1 by (vm_compute; reflexivity).
  assert (StoreGet pod' later = (Some build1, true, None, later)) as Hget'
    by (vm_compute; reflexivity).
  assert (snd (result (HandlePod pod' later))
          = Some (set_CompletionTimestamp (Some 250%Z)
                    (set_Status BuildStatusComplete build1))) as Hleft2
    by (vm_compute; reflexivity).
  destruct (HandlePod_lifecycle_timestamps pod pod' b1Pending build1 _
              (clusterOf b1Pending) (clusterOf b1Pending) later later
              eq_refl eq_refl eq_refl (or_introl eq_refl)
              Hget Hleft1 Hget' Hleft2)
    as [_ [_ [_ [_ [Hs Hc]]]]].
  split; [exact Hget|]. split; [exact Hleft1|]. split; [exact Hget'|].
  eexists. split; [exact Hleft2|]. split; [exact Hs|exact Hc].
Defined.

End CoverageWitnesses.
